(** * Water-management agents: a shallow embedding of [water_management_agents.py]

    The development follows the Python module top-down: the Python values the
    agents exchange, the string operations they use on backend replies, the
    data classes, the six agents, and the orchestrator's seven-step workflow.

    Conventions.
    - A Python [str] is a [string]; a non-ASCII character stands for its
      UTF-8 bytes (substring search and [split] agree on both views).
    - A Python [float] that is a sensor reading is the rational it denotes;
      comparing a float with an integer literal is exact in Python, so
      [x > 85] is the comparison of rationals.
    - A raised exception is a [Raise] result; [try ... except] is a [match].
    - Standard output is a UTF-8 stream with the strict error handler, as
      the emoji of the messages require and as Python sets it up in a UTF-8
      locale: [print] writes any text but one that holds a lone surrogate, on
      which it raises [UnicodeEncodeError].  In a [string] a lone surrogate
      stands for the three bytes the UTF-8 scheme would give it.
    - The outside world (reasoning backend, file system, clock) is a set of
      oracles, variables of the section that holds the agents; every call to
      a collaborator is appended to a trace of events. *)

From Stdlib Require Import String Ascii List ZArith QArith Bool Arith Lia.
From Stdlib Require Import DecimalString Lqa.
Import ListNotations.

Local Close Scope Q_scope.
Local Open Scope list_scope.
Local Open Scope string_scope.

(** * Exceptions *)

Inductive exn : Type :=
| KeyError (key : string)
| TypeError
| AttributeError
| IndexError
| FileNotFoundError (path : string)
| JSONDecodeError
| UnicodeEncodeError.

Inductive result (A : Type) : Type :=
| Ok (a : A)
| Raise (e : exn).

Arguments Ok {A} a.
Arguments Raise {A} e.

Definition rbind {A B : Type} (r : result A) (k : A -> result B) : result B :=
  match r with
  | Ok a => k a
  | Raise e => Raise e
  end.

Declare Scope result_scope.
Delimit Scope result_scope with result.
Notation "x <- r ;; k" := (rbind r (fun x => k))
  (at level 61, r at next level, right associativity) : result_scope.

(** The list comprehension [[f(a) for a in xs]]: the first exception ends it. *)
Fixpoint map_result {A B : Type} (f : A -> result B) (xs : list A) : result (list B) :=
  match xs with
  | [] => Ok []
  | x :: xs' =>
      (y <- f x ;;
       ys <- map_result f xs' ;;
       Ok (y :: ys))%result
  end.

(** [xs[i]] on a Python list. *)
Definition list_index {A : Type} (xs : list A) (i : nat) : result A :=
  match nth_error xs i with
  | Some x => Ok x
  | None => Raise IndexError
  end.

(** * Python strings *)

(** [s[:n]] and [s[n:]]. *)
Fixpoint str_take (n : nat) (s : string) : string :=
  match n, s with
  | S n', String c s' => String c (str_take n' s')
  | _, _ => EmptyString
  end.

Fixpoint str_drop (n : nat) (s : string) : string :=
  match n, s with
  | S n', String _ s' => str_drop n' s'
  | _, _ => s
  end.

(** [s.find(sep)]: the index of the leftmost occurrence. *)
Fixpoint str_find (sep s : string) : option nat :=
  if prefix sep s then Some 0
  else match s with
       | EmptyString => None
       | String _ s' => option_map S (str_find sep s')
       end.

(** [sep in s]. *)
Definition str_contains (sep s : string) : bool :=
  match str_find sep s with
  | Some _ => true
  | None => false
  end.

(** [s.split(sep)] for a non-empty [sep]: cut at the leftmost occurrence and
    go on after it.  A string of length [n] has at most [n] occurrences, so
    the fuel [S n] given by [str_split] is never used up. *)
Fixpoint split_fuel (fuel : nat) (sep s : string) : list string :=
  match fuel with
  | O => [s]
  | S fuel' =>
      match str_find sep s with
      | None => [s]
      | Some i => str_take i s :: split_fuel fuel' sep (str_drop (i + String.length sep) s)
      end
  end.

Definition str_split (sep s : string) : list string :=
  split_fuel (S (String.length s)) sep s.

(** The idiom shared by the three reply parsers (lines 102-103, 185-186 and
    280-281):
<<
    if "```json" in content:
        content = content.split("```json")[1].split("```")[0]
>>
    The result is the new binding of [content]. *)
Definition json_marker : string := "```json".
Definition fence : string := "```".

Definition fenced_json (content : string) : result string :=
  if str_contains json_marker content then
    (after <- list_index (str_split json_marker content) 1 ;;
     list_index (str_split fence after) 0)%result
  else Ok content.

(** * Python values

    What [json.loads] can return, and what the agents build by hand.  A dict
    keeps its keys in insertion order, each key once.  A float that comes out
    of a reply is kept as the literal that denotes it ([NaN], [Infinity] and
    [-Infinity] included): no agent computes with it. *)

#[warnings="-register-all"]
Inductive pyval : Type :=
| PyNone
| PyBool (b : bool)
| PyInt (z : Z)
| PyFloat (literal : string)
| PyStr (s : string)
| PyList (items : list pyval)
| PyDict (entries : list (string * pyval)).

Definition pydict : Type := list (string * pyval).

(** [d.get(k)] on the entries of a dict. *)
Fixpoint dict_lookup (k : string) (d : pydict) : option pyval :=
  match d with
  | [] => None
  | (k', v) :: d' => if String.eqb k k' then Some v else dict_lookup k d'
  end.

(** [d[k] = v]: an existing key keeps its place. *)
Fixpoint dict_set (k : string) (v : pyval) (d : pydict) : pydict :=
  match d with
  | [] => [(k, v)]
  | (k', v') :: d' =>
      if String.eqb k k' then (k, v) :: d' else (k', v') :: dict_set k v d'
  end.

Definition is_dict (v : pyval) : bool :=
  match v with
  | PyDict _ => true
  | _ => false
  end.

(** [v[k]] for a string key [k]: only a dict can be subscripted by a string. *)
Definition py_getitem (v : pyval) (k : string) : result pyval :=
  match v with
  | PyDict d =>
      match dict_lookup k d with
      | Some x => Ok x
      | None => Raise (KeyError k)
      end
  | _ => Raise TypeError
  end.

(** [v.get(k, default)]: only a dict has a [get] method. *)
Definition py_get (v : pyval) (k : string) (default : pyval) : result pyval :=
  match v with
  | PyDict d =>
      match dict_lookup k d with
      | Some x => Ok x
      | None => Ok default
      end
  | _ => Raise AttributeError
  end.

Definition is_str (k : string) (v : pyval) : bool :=
  match v with
  | PyStr s => String.eqb k s
  | _ => false
  end.

(** [k in v] for a string [k]: key of a dict, element of a list, substring of
    a string; the other values are not containers. *)
Definition py_contains (k : string) (v : pyval) : result bool :=
  match v with
  | PyDict d =>
      Ok (match dict_lookup k d with Some _ => true | None => false end)
  | PyList xs => Ok (existsb (is_str k) xs)
  | PyStr s => Ok (str_contains k s)
  | _ => Raise TypeError
  end.

Fixpoint str_chars (s : string) : list pyval :=
  match s with
  | EmptyString => []
  | String c s' => PyStr (String c EmptyString) :: str_chars s'
  end.

(** [for a in v]: the elements of a list, the keys of a dict, the characters
    of a string (here its bytes: the agents only subscript what they get, which
    fails on either). *)
Definition py_iter (v : pyval) : result (list pyval) :=
  match v with
  | PyList xs => Ok xs
  | PyDict d => Ok (map (fun kv => PyStr (fst kv)) d)
  | PyStr s => Ok (str_chars s)
  | _ => Raise TypeError
  end.

(** * Standard output

    A code point from U+D800 to U+DFFF is written as the byte 237 followed by
    a byte from 160 to 191 and one more; in the UTF-8 encoding of any other
    character the byte 237 is followed by a byte below 160.  A string decoded
    from a reply holds a lone surrogate when the reply has the JSON escape of
    one. *)
Fixpoint has_surrogate (s : string) : bool :=
  match s with
  | String c (String d _ as s') =>
      ((nat_of_ascii c =? 237)%nat
       && (160 <=? nat_of_ascii d)%nat && (nat_of_ascii d <=? 191)%nat)
      || has_surrogate s'
  | _ => false
  end.

(** [print(text)] *)
Definition print_text (text : string) : result unit :=
  if has_surrogate text then Raise UnicodeEncodeError else Ok tt.

(** Whether the text an f-string gives for [v] can be written.  A string is
    formatted as itself; a number, a boolean and [None] in ASCII; a list and
    a dict by [repr], which escapes the surrogates of the strings inside. *)
Definition printable (v : pyval) : bool :=
  match v with
  | PyStr s => negb (has_surrogate s)
  | _ => true
  end.

(** [print] of an f-string whose fixed text is written around the values
    [vs]. *)
Definition print_values (vs : list pyval) : result unit :=
  if forallb printable vs then Ok tt else Raise UnicodeEncodeError.

(** * A reference JSON decoder

    [json.loads] belongs to the Python library, not to the repository: the
    agents below take it as an oracle [json_loads].  This module is the
    instance used to run them on concrete replies.  It follows the grammar of
    CPython's [json.decoder] and [json.scanner]: whitespace is space, tab,
    newline and carriage return; a number with a fraction or an exponent is a
    float; [NaN], [Infinity] and [-Infinity] are accepted; a string may not
    hold a raw control character; a decoded [\uXXXX] escape is written as
    UTF-8; a repeated key keeps its last value; anything after the value but
    whitespace is an error.  The interpreter's limits on nesting depth and on
    the number of digits of an integer are not modelled. *)

Module Json.

Definition is_ws (c : ascii) : bool :=
  match nat_of_ascii c with
  | 32 | 9 | 10 | 13 => true
  | _ => false
  end.

Fixpoint skip_ws (s : string) : string :=
  match s with
  | String c s' => if is_ws c then skip_ws s' else s
  | EmptyString => s
  end.

Definition is_digit (c : ascii) : bool :=
  (48 <=? nat_of_ascii c)%nat && (nat_of_ascii c <=? 57)%nat.

(** The longest prefix of digits, and what follows it. *)
Fixpoint span_digits (s : string) : string * string :=
  match s with
  | String c s' =>
      if is_digit c then
        let (ds, r) := span_digits s' in (String c ds, r)
      else (EmptyString, s)
  | EmptyString => (EmptyString, s)
  end.

Fixpoint digits_value (acc : Z) (ds : string) : Z :=
  match ds with
  | String c ds' => digits_value (10 * acc + (Z.of_nat (nat_of_ascii c) - 48)) ds'
  | EmptyString => acc
  end.

(** [int(lexeme)] for the integer part of a number: an optional minus sign
    and decimal digits. *)
Definition int_of_lexeme (lexeme : string) : Z :=
  match lexeme with
  | String "-" ds => - digits_value 0 ds
  | _ => digits_value 0 lexeme
  end.

(** The integer part of a number: an optional minus sign, then either a
    single zero or a non-zero digit followed by any digits. *)
Definition match_integer (s : string) : option (string * string) :=
  let (sign, r) :=
    match s with
    | String "-" r => ("-", r)
    | _ => ("", s)
    end in
  match r with
  | String "0" r' => Some (sign ++ "0", r')
  | String c _ =>
      if is_digit c then
        let (ds, r') := span_digits r in Some (sign ++ ds, r')
      else None
  | EmptyString => None
  end.

(** The optional fraction, a point and at least one digit; the empty lexeme
    when there is none. *)
Definition match_frac (s : string) : string * string :=
  match s with
  | String "." r =>
      match span_digits r with
      | (EmptyString, _) => ("", s)
      | (ds, r') => (String "." ds, r')
      end
  | _ => ("", s)
  end.

(** The optional exponent: [e] or [E], an optional sign, at least one digit. *)
Definition match_exp (s : string) : string * string :=
  match s with
  | String c r =>
      if (Ascii.eqb c "e" || Ascii.eqb c "E")%bool then
        let (sign, r1) :=
          match r with
          | String "-" r1 => ("-", r1)
          | String "+" r1 => ("+", r1)
          | _ => ("", r)
          end in
        match span_digits r1 with
        | (EmptyString, _) => ("", s)
        | (ds, r2) => (String c (sign ++ ds), r2)
        end
      else ("", s)
  | EmptyString => ("", s)
  end.

Definition match_number (s : string) : option (pyval * string) :=
  match match_integer s with
  | None => None
  | Some (int, r) =>
      let (frac, r1) := match_frac r in
      let (exp, r2) := match_exp r1 in
      match frac, exp with
      | EmptyString, EmptyString => Some (PyInt (int_of_lexeme int), r2)
      | _, _ => Some (PyFloat (int ++ frac ++ exp), r2)
      end
  end.

Definition hex_value (c : ascii) : option N :=
  let n := N_of_ascii c in
  if ((48 <=? n) && (n <=? 57))%N then Some (n - 48)%N
  else if ((97 <=? n) && (n <=? 102))%N then Some (n - 87)%N
  else if ((65 <=? n) && (n <=? 70))%N then Some (n - 55)%N
  else None.

Definition hex4 (a b c d : ascii) : option N :=
  match hex_value a, hex_value b, hex_value c, hex_value d with
  | Some x, Some y, Some z, Some w => Some (((x * 16 + y) * 16 + z) * 16 + w)%N
  | _, _, _, _ => None
  end.

Definition byte (n : N) : string := String (ascii_of_N n) EmptyString.

(** The UTF-8 bytes of a code point (a lone surrogate is written the same way). *)
Definition utf8 (cp : N) : string :=
  (if cp <? 128 then byte cp
   else if cp <? 2048 then byte (192 + cp / 64) ++ byte (128 + cp mod 64)
   else if cp <? 65536 then
     byte (224 + cp / 4096) ++ byte (128 + (cp / 64) mod 64) ++ byte (128 + cp mod 64)
   else
     byte (240 + cp / 262144) ++ byte (128 + (cp / 4096) mod 64)
       ++ byte (128 + (cp / 64) mod 64) ++ byte (128 + cp mod 64))%N.

Definition is_high_surrogate (cp : N) : bool := ((55296 <=? cp) && (cp <=? 56319))%N.
Definition is_low_surrogate (cp : N) : bool := ((56320 <=? cp) && (cp <=? 57343))%N.
Definition join_surrogates (hi lo : N) : N :=
  (65536 + (hi - 55296) * 1024 + (lo - 56320))%N.

(** The two-character escapes: quote, backslash, slash, b, f, n, r, t. *)
Definition unescape (c : ascii) : option ascii :=
  match nat_of_ascii c with
  | 34 | 92 | 47 => Some c
  | 98 => Some (ascii_of_nat 8)
  | 102 => Some (ascii_of_nat 12)
  | 110 => Some (ascii_of_nat 10)
  | 114 => Some (ascii_of_nat 13)
  | 116 => Some (ascii_of_nat 9)
  | _ => None
  end.

Definition dquote : ascii := ascii_of_nat 34.

Definition push (t : string) (r : option (string * string)) : option (string * string) :=
  match r with
  | Some (t', rest) => Some (t ++ t', rest)
  | None => None
  end.

(** The body of a string, from just after its opening quote. *)
Fixpoint scan_string (s : string) : option (string * string) :=
  match s with
  | EmptyString => None
  | String c r =>
      if Ascii.eqb c dquote then Some (EmptyString, r)
      else if Ascii.eqb c "\" then
        match r with
        | String "u" (String h1 (String h2 (String h3 (String h4 r4)))) =>
            match hex4 h1 h2 h3 h4 with
            | None => None
            | Some cp =>
                if is_high_surrogate cp then
                  match r4 with
                  | String "\" (String "u"
                      (String k1 (String k2 (String k3 (String k4 r8))))) =>
                      match hex4 k1 k2 k3 k4 with
                      | None => None
                      | Some cp2 =>
                          if is_low_surrogate cp2
                          then push (utf8 (join_surrogates cp cp2)) (scan_string r8)
                          else push (utf8 cp) (scan_string r4)
                      end
                  | _ => push (utf8 cp) (scan_string r4)
                  end
                else push (utf8 cp) (scan_string r4)
            end
        | String e r1 =>
            match unescape e with
            | Some ch => push (String ch EmptyString) (scan_string r1)
            | None => None
            end
        | EmptyString => None
        end
      else if (nat_of_ascii c <? 32)%nat then None
      else push (String c EmptyString) (scan_string r)
  end.

Definition keyword (word : string) (v : pyval) (s : string) : option (pyval * string) :=
  if prefix word s then Some (v, str_drop (String.length word) s) else None.

Definition first_of {A : Type} (x y : option A) : option A :=
  match x with
  | Some _ => x
  | None => y
  end.

(** One value at the head of [s].  Every call goes down by one unit of fuel;
    a reply of [n] characters starts fewer than [n] nested calls. *)
Fixpoint scan_once (fuel : nat) (s : string) : option (pyval * string) :=
  match fuel with
  | O => None
  | S fuel' =>
      match s with
      | EmptyString => None
      | String c r =>
          if Ascii.eqb c dquote then
            match scan_string r with
            | Some (t, r') => Some (PyStr t, r')
            | None => None
            end
          else if Ascii.eqb c "{" then
            match skip_ws r with
            | String "}" r' => Some (PyDict [], r')
            | r' => scan_members fuel' [] r'
            end
          else if Ascii.eqb c "[" then
            match skip_ws r with
            | String "]" r' => Some (PyList [], r')
            | r' => scan_elements fuel' [] r'
            end
          else
            first_of (keyword "null" PyNone s)
            (first_of (keyword "true" (PyBool true) s)
            (first_of (keyword "false" (PyBool false) s)
            (first_of (match_number s)
            (first_of (keyword "NaN" (PyFloat "NaN") s)
            (first_of (keyword "Infinity" (PyFloat "Infinity") s)
                      (keyword "-Infinity" (PyFloat "-Infinity") s))))))
      end
  end
with scan_elements (fuel : nat) (seen : list pyval) (s : string)
  : option (pyval * string) :=
  match fuel with
  | O => None
  | S fuel' =>
      match scan_once fuel' s with
      | None => None
      | Some (v, r) =>
          match skip_ws r with
          | String "]" r' => Some (PyList (rev (v :: seen)), r')
          | String "," r' => scan_elements fuel' (v :: seen) (skip_ws r')
          | _ => None
          end
      end
  end
with scan_members (fuel : nat) (seen : pydict) (s : string)
  : option (pyval * string) :=
  match fuel with
  | O => None
  | S fuel' =>
      match s with
      | EmptyString => None
      | String c r =>
          if Ascii.eqb c dquote then
            match scan_string r with
            | None => None
            | Some (k, r1) =>
                match skip_ws r1 with
                | String ":" r2 =>
                    match scan_once fuel' (skip_ws r2) with
                    | None => None
                    | Some (v, r3) =>
                        match skip_ws r3 with
                        | String "}" r4 => Some (PyDict (dict_set k v seen), r4)
                        | String "," r4 =>
                            scan_members fuel' (dict_set k v seen) (skip_ws r4)
                        | _ => None
                        end
                    end
                | _ => None
                end
            end
          else None
      end
  end.

(** [json.loads(s)] *)
Definition loads (s : string) : result pyval :=
  match scan_once (String.length s + 2) (skip_ws s) with
  | Some (v, r) =>
      match skip_ws r with
      | EmptyString => Ok v
      | _ => Raise JSONDecodeError
      end
  | None => Raise JSONDecodeError
  end.

End Json.

(** * Data models (lines 23-47) *)

Inductive AlertLevel : Type := NORMAL | WARNING | CRITICAL | EMERGENCY.

(** [AlertLevel.value] *)
Definition alert_value (level : AlertLevel) : string :=
  match level with
  | NORMAL => "normal"
  | WARNING => "warning"
  | CRITICAL => "critical"
  | EMERGENCY => "emergency"
  end.

Definition AlertLevel_eqb (a b : AlertLevel) : bool :=
  match a, b with
  | NORMAL, NORMAL | WARNING, WARNING | CRITICAL, CRITICAL | EMERGENCY, EMERGENCY => true
  | _, _ => false
  end.

(** [timestamp] is the reading's [datetime], kept in ISO format. *)
Record WaterSensorData : Type := {
  sensor_id : string;
  location : string;
  water_level : Q;
  flow_rate : Q;
  temperature : Q;
  ph_level : Q;
  timestamp : string;
  image_path : option string
}.

(** The data class does not check its fields: each holds whatever value the
    reply gave it. *)
Record RedirectionAction : Type := {
  valve_id : pyval;
  action : pyval;
  percentage : pyval;
  destination : pyval;
  priority : pyval;
  reason : pyval
}.

(** The dict built by [analyze_sensor_data] (lines 125-138); [vision_analysis]
    is the one key that may be missing. *)
Record sensor_analysis : Type := {
  sa_sensor_id : string;
  sa_location : string;
  sa_alert_level : string;
  sa_water_level : Q;
  sa_flow_rate : Q;
  sa_requires_action : bool;
  sa_timestamp : string;
  sa_vision_analysis : option pyval
}.

(** The dict returned by [get_weather_forecast] (lines 314-320). *)
Record weather : Type := {
  w_location : string;
  w_rainfall_forecast_mm : list Z;
  w_temperature : Z;
  w_humidity : Z;
  w_forecast_period : string
}.

(** An entry of [available_destinations] (lines 389-393). *)
Record destination_entry : Type := {
  d_id : string;
  d_type : string;
  d_capacity_remaining : Z
}.

(** The dict returned by [process_overflow_scenario] (lines 430-434). *)
Record report : Type := {
  r_sensor_analysis : sensor_analysis;
  r_prediction : pyval;
  r_actions_taken : list RedirectionAction
}.

(** * Collaborators and the trace of their calls *)

(** The keyword arguments of [groq_client.chat.completions.create].  The
    prompt text is left out: it only reaches the backend, and the backend's
    reply is an oracle of the whole history. *)
Record completion_request : Type := {
  model : string;
  sampling_temperature : Q;
  max_tokens : Z
}.

Inductive event : Type :=
| FileRead (path : string)
| ChatCompletion (request : completion_request)
| WeatherForecast (place : string)
| ValveControl (valve action_kind percent : pyval)
| Notification (message : string) (recipients : list string)
| DatabaseUpdate (sensor stamp : string) (actions : list RedirectionAction)
    (level : string).

Definition trace : Type := list event.

(** A step of an agent: it reads the trace so far, may extend it, and returns
    a value or raises. *)
Definition M (A : Type) : Type := trace -> result A * trace.

Definition ret {A : Type} (a : A) : M A := fun t => (Ok a, t).

Definition bind {A B : Type} (m : M A) (k : A -> M B) : M B :=
  fun t =>
    match m t with
    | (Ok a, t') => k a t'
    | (Raise e, t') => (Raise e, t')
    end.

Definition lift {A : Type} (r : result A) : M A := fun t => (r, t).

Definition emit (e : event) : M unit := fun t => (Ok tt, (t ++ [e])%list).

Declare Scope agent_scope.
Delimit Scope agent_scope with agent.
Notation "x <- m ;; k" := (bind m (fun x => k))
  (at level 61, m at next level, right associativity) : agent_scope.

(** [for x in xs: body(x)] *)
Fixpoint for_each {A : Type} (xs : list A) (body : A -> M unit) : M unit :=
  match xs with
  | [] => ret tt
  | x :: xs' => (_ <- body x ;; for_each xs' body)%agent
  end.

(** [x > y] and [x >= y] on readings. *)
Definition Qgtb (x y : Q) : bool :=
  match (x ?= y)%Q with
  | Gt => true
  | _ => false
  end.

Definition Qgeb (x y : Q) : bool :=
  match (x ?= y)%Q with
  | Lt => false
  | _ => true
  end.

(** Sample replies are written with an apostrophe where the reply has a
    double quote; [dq] puts the double quotes back. *)
Fixpoint dq (s : string) : string :=
  match s with
  | EmptyString => EmptyString
  | String c s' => String (if Ascii.eqb c "'" then Json.dquote else c) (dq s')
  end.

(** * The agents *)

Section Agents.

(** [json.loads]. *)
Variable json_loads : string -> result pyval.
(** The text of the backend's reply to the last request of the trace.  The
    backend is taken to answer every request with some text. *)
Variable groq : trace -> string.
(** Whether [open(path, "rb")] succeeds. *)
Variable readable : string -> bool.
(** [datetime.now().isoformat()] after the calls of the trace. *)
Variable now : trace -> string.
(** How an f-string prints a float. *)
Variable float_str : Q -> string.

Definition chat (request : completion_request) : M string :=
  fun t =>
    let t' := (t ++ [ChatCompletion request])%list in
    (Ok (groq t'), t').

(** ** Agent 1: sensor monitor (lines 51-140) *)

Definition sensor_model : string := "llama-4-scout-preview".
Definition alert_threshold : Q := 85.

Definition vision_request : completion_request :=
  {| model := sensor_model; sampling_temperature := 3 # 10; max_tokens := 1024 |}.

Definition vision_fallback (analysis : string) : pyval :=
  PyDict [("water_level", PyInt 0);
          ("overflow_detected", PyBool false);
          ("urgency", PyStr "normal");
          ("raw_analysis", PyStr analysis)].

(** The [except] clause reads [analysis] as it is bound when the exception
    is raised: the text taken out of the fence once that assignment is done. *)
Definition _parse_vision_analysis (analysis : string) : pyval :=
  match fenced_json analysis with
  | Raise _ => vision_fallback analysis
  | Ok analysis' =>
      match json_loads analysis' with
      | Ok v => v
      | Raise _ => vision_fallback analysis'
      end
  end.

Definition process_camera_feed (path : string) : M pyval :=
  (_ <- emit (FileRead path) ;;
   _ <- lift (if readable path then Ok tt else Raise (FileNotFoundError path)) ;;
   analysis <- chat vision_request ;;
   ret (_parse_vision_analysis analysis))%agent.

(** Lines 116-123: three tests in a row, each one overriding the level. *)
Definition alert_level_of (level : Q) : AlertLevel :=
  let alert_level := NORMAL in
  let alert_level := if Qgtb level alert_threshold then WARNING else alert_level in
  let alert_level := if Qgtb level 95 then CRITICAL else alert_level in
  let alert_level := if Qgeb level 100 then EMERGENCY else alert_level in
  alert_level.

(** [if sensor_data.image_path:] holds for a non-empty path. *)
Definition truthy_path (p : option string) : option string :=
  match p with
  | Some EmptyString => None
  | _ => p
  end.

(** The dict of lines 125-133, with the vision entry of lines 136-138. *)
Definition analysis_dict (sensor_data : WaterSensorData) (vision : option pyval)
  : sensor_analysis :=
  let alert_level := alert_level_of (water_level sensor_data) in
  {| sa_sensor_id := sensor_id sensor_data;
     sa_location := location sensor_data;
     sa_alert_level := alert_value alert_level;
     sa_water_level := water_level sensor_data;
     sa_flow_rate := flow_rate sensor_data;
     sa_requires_action := negb (AlertLevel_eqb alert_level NORMAL);
     sa_timestamp := timestamp sensor_data;
     sa_vision_analysis := vision |}.

Definition analyze_sensor_data (sensor_data : WaterSensorData) : M sensor_analysis :=
  match truthy_path (image_path sensor_data) with
  | Some path =>
      (vision_data <- process_camera_feed path ;;
       ret (analysis_dict sensor_data (Some vision_data)))%agent
  | None => ret (analysis_dict sensor_data None)
  end.

(** ** Agent 2: prediction (lines 144-189) *)

Definition prediction_model : string := "llama-3.1-8b-instant".

Definition prediction_request : completion_request :=
  {| model := prediction_model; sampling_temperature := 4 # 10; max_tokens := 1500 |}.

Definition prediction_fallback (content : string) : pyval :=
  PyDict [("error", PyStr "parsing_failed"); ("raw", PyStr content)].

Definition _parse_prediction (content : string) : pyval :=
  match fenced_json content with
  | Raise _ => prediction_fallback content
  | Ok content' =>
      match json_loads content' with
      | Ok v => v
      | Raise _ => prediction_fallback content'
      end
  end.

Definition predict_overflow (current_data : sensor_analysis) (weather_data : weather)
  : M pyval :=
  (content <- chat prediction_request ;;
   ret (_parse_prediction content))%agent.

(** ** Agent 3: voice interface (lines 193-226) *)

Definition generate_alert_message (alert_data : sensor_analysis) (language : string)
  : string :=
  let en :=
    "Alert: Water level at " ++ sa_location alert_data ++ " is "
      ++ float_str (sa_water_level alert_data) ++ "%. " ++ "Monitoring situation." in
  let hi :=
    "चेतावनी: " ++ sa_location alert_data ++ " पर पानी का स्तर "
      ++ float_str (sa_water_level alert_data) ++ "% है। "
      ++ "स्थिति की निगरानी की जा रही है।" in
  if String.eqb language "hi" then hi else en.

(** ** Agent 4: redirection controller (lines 230-300) *)

Definition controller_model : string := "llama-3.3-70b-versatile".

Definition planning_request : completion_request :=
  {| model := controller_model; sampling_temperature := 3 # 10; max_tokens := 2000 |}.

(** Lines 288-295: the keyword arguments are evaluated in the order written. *)
Definition action_of (a : pyval) : result RedirectionAction :=
  (v <- py_getitem a "valve_id" ;;
   k <- py_getitem a "action" ;;
   p <- py_getitem a "percentage" ;;
   d <- py_getitem a "destination" ;;
   n <- py_get a "priority" (PyInt 5) ;;
   r <- py_getitem a "reason" ;;
   Ok {| valve_id := v; action := k; percentage := p;
         destination := d; priority := n; reason := r |})%result.

(** Lines 284-285: a dict with an ["actions"] key stands for that entry. *)
Definition unwrap_actions (actions_data : pyval) : pyval :=
  match actions_data with
  | PyDict d =>
      match dict_lookup "actions" d with
      | Some inner => inner
      | None => actions_data
      end
  | _ => actions_data
  end.

(** The body of the [try] block (lines 280-297).  The handler prints the
    exception (line 299): its text is ASCII, a missing key being printed by
    [repr], so this print cannot fail. *)
Definition parse_actions_body (content : string) : result (list RedirectionAction) :=
  (content' <- fenced_json content ;;
   actions_data <- json_loads content' ;;
   items <- py_iter (unwrap_actions actions_data) ;;
   map_result action_of items)%result.

Definition _parse_actions (content : string) : list RedirectionAction :=
  match parse_actions_body content with
  | Ok actions => actions
  | Raise _ => []
  end.

Definition calculate_redirection (analysis : sensor_analysis) (prediction : pyval)
    (available_destinations : list destination_entry) : M (list RedirectionAction) :=
  (content <- chat planning_request ;;
   ret (_parse_actions content))%agent.

(** ** Agent 5: external integrations (lines 304-345) *)

Definition get_weather_forecast (place : string) : M weather :=
  (_ <- emit (WeatherForecast place) ;;
   ret {| w_location := place;
          w_rainfall_forecast_mm := [5; 12; 8; 2; 0; 0]%Z;
          w_temperature := 28;
          w_humidity := 75;
          w_forecast_period := "next_24h" |})%agent.

(** The three integrations are simulated: each builds or receives its record,
    which the trace keeps as the call made, and prints a line about it (lines
    334, 340 and 345). *)
Definition control_valve (valve kind percent : pyval) : M pyval :=
  fun t =>
    let command :=
      PyDict [("valve_id", valve); ("action", kind); ("percentage", percent);
              ("timestamp", PyStr (now t))] in
    ((_ <- print_values [valve; kind; percent] ;;
      Ok (PyDict [("status", PyStr "success"); ("command", command)]))%result,
     (t ++ [ValveControl valve kind percent])%list).

Definition update_database (sensor stamp : string) (actions : list RedirectionAction)
    (level : string) : M unit :=
  (_ <- emit (DatabaseUpdate sensor stamp actions level) ;;
   lift (print_values [PyStr sensor; PyStr stamp]))%agent.

(** The recipients are printed as a list, by [repr]. *)
Definition send_notifications (message : string) (recipients : list string) : M unit :=
  (_ <- emit (Notification message recipients) ;;
   lift (print_text message))%agent.

(** ** Agent 6: orchestrator (lines 349-434) *)

Definition available_destinations : list destination_entry :=
  [ {| d_id := "tank_drinking_1"; d_type := "drinking_water"; d_capacity_remaining := 5000 |};
    {| d_id := "reservoir_agri_2"; d_type := "agriculture"; d_capacity_remaining := 15000 |};
    {| d_id := "recharge_pit_3"; d_type := "groundwater"; d_capacity_remaining := 8000 |} ].

(** Lines 381-383: the two risks are printed, one after the other, when the
    first key is found. *)
Definition print_risks (prediction : pyval) : result unit :=
  (found <- py_contains "overflow_probability_6h" prediction ;;
   if found : bool then
     (risk_6h <- py_getitem prediction "overflow_probability_6h" ;;
      _ <- print_values [risk_6h] ;;
      risk_12h <- py_getitem prediction "overflow_probability_12h" ;;
      print_values [risk_12h])
   else Ok tt)%result.

(** Step 5 (lines 401-407): each action is sent to its valve, then printed. *)
Definition execute_valve_controls (actions : list RedirectionAction) : M unit :=
  for_each actions
    (fun a =>
       (_ <- control_valve (valve_id a) (action a) (percentage a) ;;
        lift (print_values [valve_id a; action a; destination a]))%agent).

(** The prints left out of the workflow write fixed text, the alert level,
    the water level and the rainfall sum (lines 363-379, 387, 400, 410, 418
    and 426-428): none can fail. *)
Definition process_overflow_scenario (sensor_data : WaterSensorData) : M report :=
  (analysis <- analyze_sensor_data sensor_data ;;
   weather_data <- get_weather_forecast (location sensor_data) ;;
   prediction <- predict_overflow analysis weather_data ;;
   _ <- lift (print_risks prediction) ;;
   if sa_requires_action analysis then
     (actions <- calculate_redirection analysis prediction available_destinations ;;
      _ <- execute_valve_controls actions ;;
      _ <- send_notifications (generate_alert_message analysis "en")
             ["water_dept"; "field_ops"] ;;
      _ <- (fun t =>
              update_database (sensor_id sensor_data) (now t) actions
                (sa_alert_level analysis) t) ;;
      ret {| r_sensor_analysis := analysis;
             r_prediction := prediction;
             r_actions_taken := actions |})
   else
     ret {| r_sensor_analysis := analysis;
            r_prediction := prediction;
            r_actions_taken := [] |})%agent.

(** * Vocabulary of the statements *)

(** A reply fails to parse when the text selected from it is rejected by
    [json.loads]. *)
Definition unparsable (content : string) : Prop :=
  forall text, fenced_json content = Ok text -> exists e, json_loads text = Raise e.

(** The keys [action_of] reads with [a[key]]. *)
Definition required_keys : list string :=
  ["valve_id"; "action"; "percentage"; "destination"; "reason"].

Definition has_key (k : string) (a : pyval) : bool :=
  match a with
  | PyDict d => match dict_lookup k d with Some _ => true | None => false end
  | _ => false
  end.

Definition has_required_keys (a : pyval) : bool :=
  forallb (fun k => has_key k a) required_keys.

(** The decoded reply is an array of actions, bare or under ["actions"]. *)
Definition action_array (data : pyval) (items : list pyval) : Prop :=
  data = PyList items \/
  exists d, data = PyDict d /\ dict_lookup "actions" d = Some (PyList items).

(** [act] holds the values of the element [a], and priority 5 when [a] has
    no priority. *)
Definition built_from (a : pyval) (act : RedirectionAction) : Prop :=
  py_getitem a "valve_id" = Ok (valve_id act) /\
  py_getitem a "action" = Ok (action act) /\
  py_getitem a "percentage" = Ok (percentage act) /\
  py_getitem a "destination" = Ok (destination act) /\
  py_get a "priority" (PyInt 5) = Ok (priority act) /\
  py_getitem a "reason" = Ok (reason act).

Definition valve_command (a : RedirectionAction) : event :=
  ValveControl (valve_id a) (action a) (percentage a).

(** The values of an action that step 5 prints. *)
Definition action_printable (a : RedirectionAction) : bool :=
  forallb printable [valve_id a; action a; percentage a; destination a].

(** The calls of steps 1 to 3: camera, forecast, prediction. *)
Definition monitoring_event (e : event) : bool :=
  match e with
  | FileRead _ | WeatherForecast _ => true
  | ChatCompletion r =>
      String.eqb (model r) sensor_model || String.eqb (model r) prediction_model
  | ValveControl _ _ _ | Notification _ _ | DatabaseUpdate _ _ _ _ => false
  end.

Definition is_valve_command (e : event) : bool :=
  match e with
  | ValveControl _ _ _ => true
  | _ => false
  end.

Definition is_completion (e : event) : bool :=
  match e with
  | ChatCompletion _ => true
  | _ => false
  end.

(** ** The post-validation of the specification, section 4.5

    These follow the words of the specification, not the code: they are what
    the planner's output is compared with. *)

Definition spec_percentage_in_range (a : RedirectionAction) : bool :=
  match percentage a with
  | PyInt p => (0 <=? p)%Z && (p <=? 100)%Z
  | _ => false
  end.

Definition spec_kind_matches_percentage (a : RedirectionAction) : bool :=
  match action a, percentage a with
  | PyStr kind, PyInt p =>
      (if String.eqb kind "close" then (p =? 0)%Z else true)
      && (if String.eqb kind "open" then (p =? 100)%Z else true)
  | _, _ => false
  end.

Definition spec_known_destination (inventory : list destination_entry)
    (a : RedirectionAction) : bool :=
  existsb (fun d => is_str (d_id d) (destination a)) inventory.

Definition pyval_key (v : pyval) : string :=
  match v with
  | PyStr s => s
  | _ => EmptyString
  end.

Fixpoint spec_unique_valves (acts : list RedirectionAction) : bool :=
  match acts with
  | [] => true
  | a :: rest =>
      negb (existsb (fun b => String.eqb (pyval_key (valve_id a)) (pyval_key (valve_id b))) rest)
      && spec_unique_valves rest
  end.

Definition priority_number (a : RedirectionAction) : Z :=
  match priority a with
  | PyInt n => n
  | _ => 0
  end.

Fixpoint spec_sorted_by_priority (acts : list RedirectionAction) : bool :=
  match acts with
  | a :: (b :: _) as rest =>
      (priority_number a <=? priority_number b)%Z && spec_sorted_by_priority rest
  | _ => true
  end.

(** * Sample inputs *)

(** The reading of [main] (lines 445-454). *)
Definition main_reading : WaterSensorData :=
  {| sensor_id := "WS_TANK_001";
     location := "Community Tank - Sector 12, Jaipur";
     water_level := 185 # 2;
     flow_rate := 450;
     temperature := 53 # 2;
     ph_level := 36 # 5;
     timestamp := "2024-06-01T12:00:00";
     image_path := None |}.

Definition reading_at (level : Q) : WaterSensorData :=
  {| sensor_id := sensor_id main_reading;
     location := location main_reading;
     water_level := level;
     flow_rate := flow_rate main_reading;
     temperature := temperature main_reading;
     ph_level := ph_level main_reading;
     timestamp := timestamp main_reading;
     image_path := None |}.

Definition sample_analysis (level : Q) : sensor_analysis :=
  {| sa_sensor_id := "WS_TANK_001";
     sa_location := "Community Tank - Sector 12, Jaipur";
     sa_alert_level := alert_value (alert_level_of level);
     sa_water_level := level;
     sa_flow_rate := 450;
     sa_requires_action := negb (AlertLevel_eqb (alert_level_of level) NORMAL);
     sa_timestamp := "2024-06-01T12:00:00";
     sa_vision_analysis := None |}.

Definition sample_weather : weather :=
  {| w_location := "Community Tank - Sector 12, Jaipur";
     w_rainfall_forecast_mm := [5; 12; 8; 2; 0; 0]%Z;
     w_temperature := 28;
     w_humidity := 75;
     w_forecast_period := "next_24h" |}.

Definition no_file (path : string) : bool := false.
Definition fixed_clock (t : trace) : string := "2024-06-01T12:00:05".

(** The decimal expansion of a reading, as an f-string prints 92.5 or 30.0. *)
Fixpoint fraction_digits (fuel : nat) (num den : Z) : string :=
  match fuel with
  | O => EmptyString
  | S fuel' =>
      let digit := (10 * num / den)%Z in
      let rest := ((10 * num) mod den)%Z in
      String (ascii_of_nat (48 + Z.to_nat digit))
        (if (rest =? 0)%Z then EmptyString else fraction_digits fuel' rest den)
  end.

Definition decimal_str (x : Q) : string :=
  let n := Z.abs (Qnum x) in
  let d := Zpos (Qden x) in
  (if (Qnum x <? 0)%Z then "-" else "")
    ++ NilZero.string_of_uint (N.to_uint (Z.to_N (n / d))) ++ "."
    ++ fraction_digits 17 (n mod d) d.

(** A backend that gives one text to the prediction model and one to the
    controller model. *)
Definition backend_by_model (prediction planning : string) (t : trace) : string :=
  match last t (FileRead EmptyString) with
  | ChatCompletion r =>
      if String.eqb (model r) prediction_model then prediction
      else if String.eqb (model r) controller_model then planning
      else EmptyString
  | _ => EmptyString
  end.

(** A backend that answers its n-th request with the n-th text of a script. *)
Definition backend_by_turn (script : list string) (t : trace) : string :=
  nth (List.length (filter is_completion t) - 1) script EmptyString.

Definition refusal : string := "I am sorry, I cannot produce a plan right now.".

(** A backend that never answers in JSON. *)
Definition refusing_backend (t : trace) : string := refusal.

(** A file system with one camera image. *)
Definition camera_image : string := "frames/tank_001.jpg".
Definition one_image (path : string) : bool := String.eqb path camera_image.

Definition risk_reply : string :=
  dq "{'overflow_probability_6h': 0.4, 'overflow_probability_12h': 0.6, 'overflow_probability_24h': 0.8, 'risk_level': 'high'}".

Definition plan_action (valve kind : string) (percent : Z) (dest : string)
    (prio : Z) (why : string) : RedirectionAction :=
  {| valve_id := PyStr valve; action := PyStr kind; percentage := PyInt percent;
     destination := PyStr dest; priority := PyInt prio; reason := PyStr why |}.

(** Out-of-range percentage, an unknown destination, the same valve twice, a
    close at 40 percent, priorities in descending order. *)
Definition plan_unvalidated : string :=
  dq "[{'valve_id': 'V1', 'action': 'open', 'percentage': 150, 'destination': 'lake_9', 'priority': 2, 'reason': 'relieve tank'},
 {'valve_id': 'V1', 'action': 'close', 'percentage': 40, 'destination': 'tank_drinking_1', 'priority': 1, 'reason': 'protect supply'}]".

Definition unvalidated_elements : list pyval :=
  [PyDict [("valve_id", PyStr "V1"); ("action", PyStr "open"); ("percentage", PyInt 150);
           ("destination", PyStr "lake_9"); ("priority", PyInt 2);
           ("reason", PyStr "relieve tank")];
   PyDict [("valve_id", PyStr "V1"); ("action", PyStr "close"); ("percentage", PyInt 40);
           ("destination", PyStr "tank_drinking_1"); ("priority", PyInt 1);
           ("reason", PyStr "protect supply")]].

(** The same action twice. *)
Definition plan_repeated : string :=
  dq "[{'valve_id': 'V1', 'action': 'open', 'percentage': 100, 'destination': 'tank_drinking_1', 'priority': 1, 'reason': 'relieve tank'},
 {'valve_id': 'V1', 'action': 'open', 'percentage': 100, 'destination': 'tank_drinking_1', 'priority': 1, 'reason': 'relieve tank'}]".

(** A fenced object with an actions key; the second element has no reason. *)
Definition plan_missing_reason : string :=
  dq "Here is the plan:
```json
{'actions': [{'valve_id': 'V1', 'action': 'open', 'percentage': 100, 'destination': 'tank_drinking_1', 'priority': 1, 'reason': 'relieve tank'},
             {'valve_id': 'V2', 'action': 'partial', 'percentage': 50, 'destination': 'reservoir_agri_2', 'priority': 2}]}
```
Apply it now.".

(** A fenced object with an actions key; the one element has no priority. *)
Definition plan_without_priority : string :=
  dq "```json
{'actions': [{'valve_id': 'V2', 'action': 'partial', 'percentage': 50, 'destination': 'reservoir_agri_2', 'reason': 'spare capacity'}]}
```".

(** * The MCP server's tank table ([mcp_server.py], lines 329-352)

    [get_tank_capacity] is the one tool of the server that computes without
    the database.  Its argument is a list of strings, as annotated.  The fill
    percentage is a float; for the rows of the table the float quotient and
    product are exact, so it is kept as the rational it denotes. *)

Record tank : Type := {
  total_capacity : Z;
  current_level : Z
}.

Record tank_report : Type := {
  capacity_liters : Z;
  current_level_liters : Z;
  available_capacity : Z;
  fill_percentage : Q
}.

(** A dict with string keys, for values of any one type. *)
Fixpoint assoc_lookup {V : Type} (k : string) (d : list (string * V)) : option V :=
  match d with
  | [] => None
  | (k', v) :: d' => if String.eqb k k' then Some v else assoc_lookup k d'
  end.

Fixpoint assoc_set {V : Type} (k : string) (v : V) (d : list (string * V))
  : list (string * V) :=
  match d with
  | [] => [(k, v)]
  | (k', v') :: d' =>
      if String.eqb k k' then (k, v) :: d' else (k', v') :: assoc_set k v d'
  end.

Definition tanks : list (string * tank) :=
  [("tank_drinking_1", {| total_capacity := 10000; current_level := 5000 |});
   ("reservoir_agri_2", {| total_capacity := 50000; current_level := 35000 |});
   ("recharge_pit_3", {| total_capacity := 20000; current_level := 12000 |})].

(** Lines 344-349. *)
Definition tank_report_of (data : tank) : tank_report :=
  {| capacity_liters := total_capacity data;
     current_level_liters := current_level data;
     available_capacity := total_capacity data - current_level data;
     fill_percentage :=
       (inject_Z (current_level data) / inject_Z (total_capacity data) * 100)%Q |}.

(** Lines 340-351: an empty request stands for every tank of the table; an
    id that is not in the table is passed over. *)
Definition get_tank_capacity (tank_ids : list string) : list (string * tank_report) :=
  let requested :=
    match tank_ids with
    | [] => map fst tanks
    | _ => tank_ids
    end in
  fold_left
    (fun result tank_id =>
       match assoc_lookup tank_id tanks with
       | Some data => assoc_set tank_id (tank_report_of data) result
       | None => result
       end)
    requested [].

(** * Further vocabulary *)

(** The levels in the order of their declaration, least severe first. *)
Definition alert_rank (level : AlertLevel) : nat :=
  match level with
  | NORMAL => 0
  | WARNING => 1
  | CRITICAL => 2
  | EMERGENCY => 3
  end.

(** The calls that ask and change nothing outside: file reads, forecasts and
    backend requests. *)
Definition is_query (e : event) : bool :=
  match e with
  | FileRead _ | WeatherForecast _ | ChatCompletion _ => true
  | ValveControl _ _ _ | Notification _ _ | DatabaseUpdate _ _ _ _ => false
  end.

(** * Further sample inputs *)

Definition reading_with_image (level : Q) (path : string) : WaterSensorData :=
  {| sensor_id := sensor_id main_reading;
     location := location main_reading;
     water_level := level;
     flow_rate := flow_rate main_reading;
     temperature := temperature main_reading;
     ph_level := ph_level main_reading;
     timestamp := timestamp main_reading;
     image_path := Some path |}.

(** A backend that answers every request with the same text. *)
Definition constant_backend (text : string) (t : trace) : string := text.

(** A vision reply that reports an urgent, nearly full tank. *)
Definition alarming_vision_reply : string :=
  dq "{'water_level': 99, 'overflow_detected': true, 'urgency': 'critical'}".

(** A prediction with the first risk only. *)
Definition partial_risk_reply : string := dq "{'overflow_probability_6h': 0.9}".

(** One action object where an array of actions is expected. *)
Definition plan_single_object : string :=
  dq "{'valve_id': 'V1', 'action': 'open', 'percentage': 100, 'destination': 'tank_drinking_1', 'priority': 1, 'reason': 'relieve tank'}".

(** Three actions; the destination of the second is a lone surrogate, which
    the reply writes as a JSON escape. *)
Definition plan_unprintable : string :=
  dq "[{'valve_id': 'V1', 'action': 'open', 'percentage': 100, 'destination': 'tank_drinking_1', 'priority': 1, 'reason': 'relieve tank'},
 {'valve_id': 'V2', 'action': 'partial', 'percentage': 50, 'destination': '\ud800', 'priority': 2, 'reason': 'spare capacity'},
 {'valve_id': 'V3', 'action': 'open', 'percentage': 100, 'destination': 'recharge_pit_3', 'priority': 3, 'reason': 'recharge'}]".

(** A prediction whose first risk is a lone surrogate and whose second risk
    is missing. *)
Definition unprintable_risk_reply : string := dq "{'overflow_probability_6h': '\udc00'}".

(** A bare JSON array, valid as a whole, whose one string names the marker. *)
Definition reply_naming_the_marker : string := dq "['wrap it in ```json fences']".

(** A block closed by four backticks that run into a second marker. *)
Definition reply_with_long_fence : string := "```jsonA````json".

(** * Proof steps *)

(** Split on every comparison of the goal and close the cases by linear
    arithmetic. *)
Ltac compare_cases :=
  repeat match goal with
         | |- context [(?a ?= ?b)%Q] =>
             let C := fresh "C" in
             destruct (a ?= b)%Q eqn:C;
             [apply Qeq_alt in C | apply Qlt_alt in C | apply Qgt_alt in C]
         end;
  try reflexivity; lra.

(** * Facts about the string operations *)

Lemma prefix_nil (s : string) : prefix EmptyString s = true.
Proof. destruct s; reflexivity. Qed.

Lemma prefix_length (sep s : string) :
  prefix sep s = true -> String.length sep <= String.length s.
Proof.
  revert s; induction sep as [|c sep IH]; intros s H; simpl.
  - lia.
  - destruct s as [|c' s]; simpl in H; [discriminate|].
    destruct (ascii_dec c c'); [|discriminate].
    apply IH in H. simpl. lia.
Qed.

Lemma prefix_app_same (sep a b : string) :
  String.length sep <= String.length a -> prefix sep (a ++ b) = prefix sep a.
Proof.
  revert a; induction sep as [|c sep IH]; intros a H.
  - now rewrite !prefix_nil.
  - destruct a as [|c' a]; simpl in H; [lia|].
    simpl. destruct (ascii_dec c c'); [|reflexivity].
    apply IH. lia.
Qed.

Lemma prefix_weaken (sep a b : string) :
  prefix sep a = true -> prefix sep (a ++ b) = true.
Proof.
  intros H. rewrite prefix_app_same; [exact H|]. now apply prefix_length.
Qed.

Lemma prefix_take (sep s : string) (n : nat) :
  prefix sep s = true -> String.length sep <= n -> prefix sep (str_take n s) = true.
Proof.
  revert s n; induction sep as [|c sep IH]; intros s n H Hn.
  - apply prefix_nil.
  - destruct s as [|c' s]; simpl in H; [discriminate|].
    destruct n as [|n]; simpl in Hn; [lia|].
    simpl. destruct (ascii_dec c c'); [|discriminate].
    apply IH; [exact H | lia].
Qed.

Lemma prefix_of_take (sep s : string) (n : nat) :
  prefix sep (str_take n s) = true -> prefix sep s = true.
Proof.
  revert s n; induction sep as [|c sep IH]; intros s n H.
  - apply prefix_nil.
  - destruct n as [|n]; destruct s as [|c' s]; simpl in H; try discriminate.
    simpl. destruct (ascii_dec c c'); [|discriminate].
    now apply IH with n.
Qed.

Lemma take_app_length (a b : string) : str_take (String.length a) (a ++ b) = a.
Proof.
  induction a as [|c a IH]; simpl.
  - now destruct b.
  - now rewrite IH.
Qed.

Lemma drop_app_length (a b : string) (n : nat) :
  str_drop (String.length a + n) (a ++ b) = str_drop n b.
Proof. induction a as [|c a IH]; simpl; [reflexivity | exact IH]. Qed.

Lemma take_take (i j : nat) (s : string) :
  i <= j -> str_take i (str_take j s) = str_take i s.
Proof.
  revert j s; induction i as [|i IH]; intros j s H.
  - now destruct (str_take j s).
  - destruct j as [|j]; [lia|].
    destruct s as [|c s]; simpl; [reflexivity|].
    rewrite IH; [reflexivity | lia].
Qed.

Lemma str_find_nil (sep : string) :
  str_find sep EmptyString = if prefix sep EmptyString then Some 0 else None.
Proof. reflexivity. Qed.

Lemma str_find_cons (sep : string) (c : ascii) (s : string) :
  str_find sep (String c s)
  = if prefix sep (String c s) then Some 0 else option_map S (str_find sep s).
Proof. reflexivity. Qed.

Lemma find_bound (sep s : string) (k : nat) :
  str_find sep s = Some k -> k + String.length sep <= String.length s.
Proof.
  revert k; induction s as [|c s IH]; intros k H.
  - rewrite str_find_nil in H.
    destruct (prefix sep EmptyString) eqn:P; [|discriminate].
    injection H as <-. now apply prefix_length in P.
  - rewrite str_find_cons in H.
    destruct (prefix sep (String c s)) eqn:P.
    + injection H as <-. now apply prefix_length in P.
    + destruct (str_find sep s) as [k'|]; [|discriminate].
      injection H as <-. specialize (IH k' eq_refl). simpl. lia.
Qed.

Lemma find_occurs (sep s : string) (k : nat) :
  str_find sep s = Some k -> prefix sep (str_drop k s) = true.
Proof.
  revert k; induction s as [|c s IH]; intros k H.
  - rewrite str_find_nil in H.
    destruct (prefix sep EmptyString) eqn:P; [|discriminate].
    injection H as <-. exact P.
  - rewrite str_find_cons in H.
    destruct (prefix sep (String c s)) eqn:P.
    + injection H as <-. exact P.
    + destruct (str_find sep s) as [k'|]; [|discriminate].
      injection H as <-. cbn [str_drop]. now apply IH.
Qed.

(** An occurrence at [i] bounds the leftmost one. *)
Lemma find_first (sep s : string) (i : nat) :
  prefix sep (str_drop i s) = true -> exists k, str_find sep s = Some k /\ k <= i.
Proof.
  revert i; induction s as [|c s IH]; intros i H.
  - exists 0. split; [|lia].
    rewrite str_find_nil.
    destruct i; cbn [str_drop] in H; now rewrite H.
  - rewrite str_find_cons. destruct (prefix sep (String c s)) eqn:P.
    + exists 0. split; [reflexivity | lia].
    + destruct i as [|i]; cbn [str_drop] in H; [congruence|].
      destruct (IH i H) as (k & -> & Hk).
      exists (S k). split; [reflexivity | lia].
Qed.

Lemma find_app_l (sep a b : string) (k : nat) :
  str_find sep a = Some k -> str_find sep (a ++ b) = Some k.
Proof.
  revert k; induction a as [|c a IH]; intros k H.
  - rewrite str_find_nil in H.
    destruct (prefix sep EmptyString) eqn:P; [|discriminate].
    injection H as <-.
    assert (E : prefix sep (EmptyString ++ b) = true) by now apply prefix_weaken.
    cbn [append] in E |- *.
    destruct b; [rewrite str_find_nil | rewrite str_find_cons]; now rewrite E.
  - rewrite str_find_cons in H. destruct (prefix sep (String c a)) eqn:P.
    + injection H as <-.
      assert (E : prefix sep (String c a ++ b) = true) by now apply prefix_weaken.
      cbn [append] in E |- *. rewrite str_find_cons. now rewrite E.
    + destruct (str_find sep a) as [k'|] eqn:F; [|discriminate].
      injection H as <-.
      assert (L : String.length sep <= String.length (String c a)).
      { apply find_bound in F. simpl. lia. }
      pose proof (prefix_app_same sep (String c a) b L) as E. rewrite P in E.
      cbn [append] in E |- *.
      rewrite str_find_cons, E, (IH k' eq_refl). reflexivity.
Qed.

Lemma find_take (sep s : string) (i n : nat) :
  str_find sep s = Some i -> i + String.length sep <= n ->
  str_find sep (str_take n s) = Some i.
Proof.
  revert i n; induction s as [|c s IH]; intros i n H Hn.
  - now destruct n.
  - rewrite str_find_cons in H. destruct (prefix sep (String c s)) eqn:P.
    + injection H as <-.
      pose proof (prefix_take sep (String c s) n P Hn) as E.
      destruct (str_take n (String c s));
        [rewrite str_find_nil | rewrite str_find_cons]; now rewrite E.
    + destruct (str_find sep s) as [i'|] eqn:F; [|discriminate].
      injection H as <-.
      destruct n as [|n]; [lia|].
      cbn [str_take]. rewrite str_find_cons.
      destruct (prefix sep (String c (str_take n s))) eqn:E.
      * apply (prefix_of_take sep (String c s) (S n)) in E. congruence.
      * rewrite (IH i' n eq_refl); [reflexivity | lia].
Qed.

(** The first piece of a split and the pieces after it. *)
Lemma split_fuel_found (fuel : nat) (sep s : string) (i : nat) :
  str_find sep s = Some i ->
  split_fuel (S fuel) sep s
  = str_take i s :: split_fuel fuel sep (str_drop (i + String.length sep) s).
Proof. intros H. cbn [split_fuel]. now rewrite H. Qed.

Lemma split_fuel_head (fuel : nat) (sep s : string) :
  list_index (split_fuel (S fuel) sep s) 0
  = Ok (match str_find sep s with Some i => str_take i s | None => s end).
Proof. cbn [split_fuel]. now destruct (str_find sep s). Qed.

(** Past [S (length s)] more fuel changes nothing: [str_split] is total. *)
Lemma drop_length (n : nat) (s : string) :
  String.length (str_drop n s) = String.length s - n.
Proof.
  revert s; induction n as [|n IH]; intros s; simpl.
  - lia.
  - destruct s as [|c s]; simpl; [reflexivity | apply IH].
Qed.

Lemma split_fuel_enough (sep s : string) (fuel fuel' : nat) :
  sep <> EmptyString ->
  String.length s < fuel -> String.length s < fuel' ->
  split_fuel fuel sep s = split_fuel fuel' sep s.
Proof.
  intros Hsep. revert s fuel'.
  induction fuel as [|fuel IH]; intros s fuel' H H'; [lia|].
  destruct fuel' as [|fuel']; [lia|].
  cbn [split_fuel]. destruct (str_find sep s) as [i|] eqn:F; [|reflexivity].
  f_equal. pose proof (find_bound _ _ _ F) as B.
  assert (0 < String.length sep) by (destruct sep; [congruence | simpl; lia]).
  apply IH; rewrite drop_length; lia.
Qed.

(** * Facts about the selection of the JSON text *)

Lemma prefix_app_inv (a b s : string) :
  prefix (a ++ b) s = true -> prefix a s = true.
Proof.
  revert s; induction a as [|c a IH]; intros s H.
  - apply prefix_nil.
  - destruct s as [|c' s]; simpl in H; [discriminate|].
    simpl. destruct (ascii_dec c c'); [|discriminate].
    now apply IH.
Qed.

Lemma marker_is_fence (s : string) :
  prefix json_marker s = true -> prefix fence s = true.
Proof. apply (prefix_app_inv fence "json"). Qed.

(** What [fenced_json] selects, in terms of [find] alone: it never raises. *)
Lemma fenced_json_eq (content : string) :
  fenced_json content
  = Ok match str_find json_marker content with
       | None => content
       | Some i =>
           let rest := str_drop (i + String.length json_marker) content in
           let after :=
             match str_find json_marker rest with
             | None => rest
             | Some j => str_take j rest
             end in
           match str_find fence after with
           | None => after
           | Some k => str_take k after
           end
       end.
Proof.
  unfold fenced_json, str_contains.
  destruct (str_find json_marker content) as [i|] eqn:F; [|reflexivity].
  destruct content as [|c content]; [discriminate|].
  unfold str_split. cbn [String.length].
  rewrite (split_fuel_found _ _ _ _ F).
  change (list_index (?x :: ?l) 1) with (list_index l 0).
  rewrite split_fuel_head. cbn [rbind].
  now rewrite split_fuel_head.
Qed.

Lemma fenced_json_plain (content : string) :
  str_find json_marker content = None -> fenced_json content = Ok content.
Proof. intros F. now rewrite fenced_json_eq, F. Qed.

Lemma fenced_json_open (pre rest : string) :
  str_find json_marker (pre ++ json_marker ++ rest) = Some (String.length pre) ->
  str_find fence rest = None ->
  fenced_json (pre ++ json_marker ++ rest) = Ok rest.
Proof.
  intros F N. rewrite fenced_json_eq, F. cbv zeta.
  rewrite drop_app_length.
  replace (str_drop (String.length json_marker) (json_marker ++ rest)) with rest
    by (symmetry; apply (drop_app_length json_marker rest 0)).
  destruct (str_find json_marker rest) as [j|] eqn:M.
  - apply find_occurs, marker_is_fence, find_first in M.
    destruct M as (k & K & _). congruence.
  - now rewrite N.
Qed.

Lemma prefix_cons (c c' : ascii) (sep s : string) :
  prefix (String c sep) (String c' s) = if ascii_dec c c' then prefix sep s else false.
Proof. reflexivity. Qed.

(** A marker cannot begin on the second or third backtick of a closing fence
    that no backtick follows. *)
Lemma no_marker_inside_fence (post : string) (d : nat) :
  prefix "`" post = false -> 0 < d < 3 ->
  prefix json_marker (str_drop d (fence ++ post)) = false.
Proof.
  intros B D.
  assert (E : d = 1 \/ d = 2) by lia.
  destruct post as [|c post].
  - destruct E as [-> | ->]; reflexivity.
  - rewrite prefix_cons in B.
    unfold json_marker, fence.
    destruct E as [-> | ->]; cbn [str_drop append]; rewrite !prefix_cons;
      destruct (ascii_dec "`" c); try reflexivity;
      now rewrite prefix_nil in B.
Qed.

Lemma fenced_json_closed (pre inner post : string) :
  str_find json_marker (pre ++ json_marker ++ inner ++ fence ++ post)
    = Some (String.length pre) ->
  str_find fence (inner ++ fence ++ post) = Some (String.length inner) ->
  prefix "`" post = false ->
  fenced_json (pre ++ json_marker ++ inner ++ fence ++ post) = Ok inner.
Proof.
  intros F C B. rewrite fenced_json_eq, F. cbv zeta.
  rewrite drop_app_length.
  replace (str_drop (String.length json_marker) (json_marker ++ inner ++ fence ++ post))
    with (inner ++ fence ++ post)
    by (symmetry; apply (drop_app_length json_marker _ 0)).
  f_equal.
  destruct (str_find json_marker (inner ++ fence ++ post)) as [j|] eqn:M.
  - pose proof (find_occurs _ _ _ M) as Pj.
    destruct (find_first _ _ _ (marker_is_fence _ Pj)) as (k & K & Hk).
    rewrite C in K. injection K as <-.
    replace j with (String.length inner + (j - String.length inner)) in Pj by lia.
    rewrite drop_app_length in Pj.
    destruct (Nat.eq_dec j (String.length inner)) as [-> | Hne].
    + rewrite take_app_length.
      destruct (str_find fence inner) as [k|] eqn:I; [|reflexivity].
      pose proof (find_bound _ _ _ I) as Bk.
      apply (find_app_l _ _ (fence ++ post)) in I.
      rewrite C in I. injection I as <-. simpl in Bk. lia.
    + destruct (Nat.lt_ge_cases (j - String.length inner) 3) as [Hlt | Hge].
      * rewrite no_marker_inside_fence in Pj by (trivial; lia). discriminate.
      * rewrite (find_take _ _ _ j C) by (simpl; lia).
        rewrite take_take by lia. apply take_app_length.
  - rewrite C. apply take_app_length.
Qed.

(** * Facts about the reply parsers *)

Lemma fenced_json_total (content : string) : exists text, fenced_json content = Ok text.
Proof. rewrite fenced_json_eq. eauto. Qed.

Lemma parse_prediction_ok (content text : string) (v : pyval) :
  fenced_json content = Ok text -> json_loads text = Ok v ->
  _parse_prediction content = v.
Proof. intros F L. unfold _parse_prediction. now rewrite F, L. Qed.

Lemma parse_prediction_failed (content text : string) (e : exn) :
  fenced_json content = Ok text -> json_loads text = Raise e ->
  _parse_prediction content = prediction_fallback text.
Proof. intros F L. unfold _parse_prediction. now rewrite F, L. Qed.

Lemma parse_vision_ok (content text : string) (v : pyval) :
  fenced_json content = Ok text -> json_loads text = Ok v ->
  _parse_vision_analysis content = v.
Proof. intros F L. unfold _parse_vision_analysis. now rewrite F, L. Qed.

Lemma parse_vision_failed (content text : string) (e : exn) :
  fenced_json content = Ok text -> json_loads text = Raise e ->
  _parse_vision_analysis content = vision_fallback text.
Proof. intros F L. unfold _parse_vision_analysis. now rewrite F, L. Qed.

Lemma parse_actions_failed (content text : string) (e : exn) :
  fenced_json content = Ok text -> json_loads text = Raise e ->
  _parse_actions content = [].
Proof.
  intros F L. unfold _parse_actions, parse_actions_body.
  rewrite F. cbn [rbind]. now rewrite L.
Qed.

Lemma parse_actions_decoded (content text : string) (data : pyval) :
  fenced_json content = Ok text -> json_loads text = Ok data ->
  parse_actions_body content
  = rbind (py_iter (unwrap_actions data)) (map_result action_of).
Proof.
  intros F L. unfold parse_actions_body. rewrite F. cbn [rbind]. now rewrite L.
Qed.

Lemma unparsable_raises (content : string) :
  unparsable content ->
  exists text e, fenced_json content = Ok text /\ json_loads text = Raise e.
Proof.
  intros U. destruct (fenced_json_total content) as (text & F).
  destruct (U text F) as (e & L). eauto.
Qed.

Lemma action_array_iter (data : pyval) (items : list pyval) :
  action_array data items -> py_iter (unwrap_actions data) = Ok items.
Proof.
  intros [-> | (d & -> & A)]; [reflexivity|].
  cbn [unwrap_actions]. now rewrite A.
Qed.

Lemma map_result_raise {A B : Type} (f : A -> result B) (xs : list A) (x : A) :
  In x xs -> (exists e, f x = Raise e) -> exists e, map_result f xs = Raise e.
Proof.
  induction xs as [|y xs IH]; intros I (e & E); [contradiction|].
  cbn [map_result]. destruct I as [-> | I].
  - rewrite E. now exists e.
  - destruct (f y) as [b|e']; [|now exists e'].
    destruct (IH I (ex_intro _ e E)) as (e' & ->). now exists e'.
Qed.

Lemma map_result_ok {A B : Type} (f : A -> result B) (R : A -> B -> Prop) (xs : list A) :
  (forall x, In x xs -> exists y, f x = Ok y /\ R x y) ->
  exists ys, map_result f xs = Ok ys /\ Forall2 R xs ys.
Proof.
  induction xs as [|x xs IH]; intros H.
  - exists []. split; [reflexivity | constructor].
  - destruct (H x (or_introl eq_refl)) as (y & E & Rxy).
    destruct IH as (ys & Es & Rs); [intros z I; apply H; now right|].
    exists (y :: ys). cbn [map_result]. rewrite E, Es.
    split; [reflexivity | now constructor].
Qed.

Lemma getitem_has_key (k : string) (a : pyval) :
  has_key k a = true -> exists v, py_getitem a k = Ok v.
Proof.
  destruct a; try discriminate. cbn [has_key py_getitem].
  destruct (dict_lookup k entries); [eauto | discriminate].
Qed.

Lemma getitem_lacks_key (k : string) (a : pyval) :
  has_key k a = false -> exists e, py_getitem a k = Raise e.
Proof.
  destruct a; cbn [has_key py_getitem]; eauto.
  destruct (dict_lookup k entries); [discriminate | eauto].
Qed.

Lemma action_of_lacks (k : string) (a : pyval) :
  In k required_keys -> has_key k a = false -> exists e, action_of a = Raise e.
Proof.
  intros I H. unfold action_of.
  destruct (getitem_lacks_key k a H) as (e & E).
  destruct (py_getitem a "valve_id") eqn:E1; [|eexists; reflexivity].
  destruct (py_getitem a "action") eqn:E2; [|eexists; reflexivity].
  destruct (py_getitem a "percentage") eqn:E3; [|eexists; reflexivity].
  destruct (py_getitem a "destination") eqn:E4; [|eexists; reflexivity].
  destruct (py_get a "priority" (PyInt 5)) eqn:E5; [|eexists; reflexivity].
  destruct (py_getitem a "reason") eqn:E6; [|eexists; reflexivity].
  cbn [required_keys In] in I.
  destruct I as [<- | [<- | [<- | [<- | [<- | []]]]]]; congruence.
Qed.

Lemma action_of_built (a : pyval) :
  has_required_keys a = true -> exists act, action_of a = Ok act /\ built_from a act.
Proof.
  unfold has_required_keys. cbn [required_keys forallb].
  rewrite !Bool.andb_true_iff. intros (K1 & K2 & K3 & K4 & K5 & _).
  destruct (getitem_has_key _ _ K1) as (v1 & E1).
  destruct (getitem_has_key _ _ K2) as (v2 & E2).
  destruct (getitem_has_key _ _ K3) as (v3 & E3).
  destruct (getitem_has_key _ _ K4) as (v4 & E4).
  destruct (getitem_has_key _ _ K5) as (v5 & E5).
  assert (E6 : exists n, py_get a "priority" (PyInt 5) = Ok n).
  { destruct a; try discriminate. cbn [py_get].
    destruct (dict_lookup "priority" entries); eauto. }
  destruct E6 as (n & E6).
  unfold action_of, built_from. rewrite E1, E2, E3, E4. cbn [rbind].
  rewrite E6, E5. cbn [rbind]. eexists. split; [reflexivity|].
  cbn. repeat split; reflexivity.
Qed.

(** One malformed element empties the plan. *)
Lemma parse_actions_malformed (content text : string) (data : pyval)
    (items : list pyval) (a : pyval) (k : string) :
  fenced_json content = Ok text -> json_loads text = Ok data ->
  action_array data items ->
  In a items -> In k required_keys -> has_key k a = false ->
  _parse_actions content = [].
Proof.
  intros F L A I K H. unfold _parse_actions.
  rewrite (parse_actions_decoded _ _ _ F L), (action_array_iter _ _ A). cbn [rbind].
  destruct (map_result_raise action_of items a I (action_of_lacks k a K H)) as (e & ->).
  reflexivity.
Qed.

(** Well-formed elements come back one for one, in order. *)
Lemma parse_actions_well_formed (content text : string) (data : pyval)
    (items : list pyval) :
  fenced_json content = Ok text -> json_loads text = Ok data ->
  action_array data items ->
  forallb has_required_keys items = true ->
  Forall2 built_from items (_parse_actions content).
Proof.
  intros F L A W. unfold _parse_actions.
  rewrite (parse_actions_decoded _ _ _ F L), (action_array_iter _ _ A). cbn [rbind].
  rewrite forallb_forall in W.
  destruct (map_result_ok action_of built_from items) as (acts & -> & R);
    [intros x I; apply action_of_built, W, I | exact R].
Qed.

(** * Cutting a string at an occurrence *)

Lemma str_app_nil_r (s : string) : s ++ EmptyString = s.
Proof. induction s as [|c s IH]; cbn [append]; [reflexivity | now rewrite IH]. Qed.

Lemma str_app_assoc (a b c : string) : (a ++ b) ++ c = a ++ b ++ c.
Proof. induction a as [|x a IH]; cbn [append]; [reflexivity | now rewrite IH]. Qed.

Lemma take_drop (n : nat) (s : string) : str_take n s ++ str_drop n s = s.
Proof.
  revert s; induction n as [|n IH]; intros s.
  - now destruct s.
  - destruct s as [|c s]; cbn [str_take str_drop append]; [reflexivity | now rewrite IH].
Qed.

Lemma take_length_le (n : nat) (s : string) : String.length (str_take n s) <= n.
Proof.
  revert s; induction n as [|n IH]; intros s.
  - destruct s; cbn; lia.
  - destruct s as [|c s]; cbn [str_take String.length]; [lia|].
    specialize (IH s). lia.
Qed.

Lemma drop_drop (a b : nat) (s : string) :
  str_drop a (str_drop b s) = str_drop (b + a) s.
Proof.
  revert s; induction b as [|b IH]; intros s; [reflexivity|].
  destruct s as [|c s]; cbn [str_drop Nat.add]; [now destruct a | apply IH].
Qed.

Lemma prefix_drop (sep s : string) :
  prefix sep s = true -> s = sep ++ str_drop (String.length sep) s.
Proof.
  revert s; induction sep as [|c sep IH]; intros s H; [reflexivity|].
  destruct s as [|c' s]; [discriminate|].
  rewrite prefix_cons in H. destruct (ascii_dec c c') as [<-|]; [|discriminate].
  cbn [String.length str_drop append]. now rewrite <- (IH s H).
Qed.

(** A found separator cuts the string in three. *)
Lemma find_split (sep s : string) (i : nat) :
  str_find sep s = Some i ->
  s = str_take i s ++ sep ++ str_drop (i + String.length sep) s.
Proof.
  intros F. rewrite <- drop_drop, <- (prefix_drop sep (str_drop i s)).
  - symmetry. apply take_drop.
  - now apply find_occurs.
Qed.

(** What is cut before the first separator holds no separator. *)
Lemma find_in_take (sep s : string) (k : nat) :
  sep <> EmptyString ->
  str_find sep s = Some k -> str_find sep (str_take k s) = None.
Proof.
  intros Hsep F. destruct (str_find sep (str_take k s)) as [j|] eqn:T; [|reflexivity].
  pose proof (find_bound _ _ _ T) as B.
  pose proof (take_length_le k s) as L.
  apply (find_app_l _ _ (str_drop k s)) in T. rewrite take_drop, F in T.
  injection T as ->.
  assert (0 < String.length sep) by (destruct sep; [congruence | cbn; lia]).
  lia.
Qed.

Lemma no_fence_no_marker (s : string) :
  str_find fence s = None -> str_find json_marker s = None.
Proof.
  intros N. destruct (str_find json_marker s) as [j|] eqn:M; [|reflexivity].
  apply find_occurs, marker_is_fence, find_first in M.
  destruct M as (k & K & _). congruence.
Qed.

Lemma take_length (n : nat) (s : string) :
  n <= String.length s -> String.length (str_take n s) = n.
Proof.
  revert s; induction n as [|n IH]; intros s H.
  - now destruct s.
  - destruct s as [|c s]; cbn [str_take String.length] in *; [lia|].
    rewrite IH; lia.
Qed.

(** A string cut at the first occurrence of [sep]. *)
Lemma find_cut (sep s : string) (i : nat) :
  str_find sep s = Some i ->
  exists before after,
    s = before ++ sep ++ after /\
    String.length before = i /\
    before = str_take i s /\
    after = str_drop (i + String.length sep) s.
Proof.
  intros F. exists (str_take i s), (str_drop (i + String.length sep) s).
  split; [now apply find_split|]. split; [|split; reflexivity].
  apply take_length. pose proof (find_bound _ _ _ F). lia.
Qed.

(** The selection, for every reply. *)
Lemma fenced_json_cases (content : string) :
  (str_find json_marker content = None /\ fenced_json content = Ok content)
  \/
  (exists pre rest segment text : string,
      content = pre ++ json_marker ++ rest /\
      str_find json_marker content = Some (String.length pre) /\
      ((str_find json_marker rest = None /\ segment = rest) \/
       (exists tail, rest = segment ++ json_marker ++ tail /\
                     str_find json_marker rest = Some (String.length segment))) /\
      ((str_find fence segment = None /\ text = segment) \/
       (exists tail, segment = text ++ fence ++ tail /\
                     str_find fence segment = Some (String.length text))) /\
      fenced_json content = Ok text).
Proof.
  destruct (str_find json_marker content) as [i|] eqn:F.
  - right. destruct (find_cut _ _ _ F) as (pre & rest & Ec & Lp & _ & Er).
    assert (S : exists segment,
               ((str_find json_marker rest = None /\ segment = rest) \/
                (exists tail, rest = segment ++ json_marker ++ tail /\
                   str_find json_marker rest = Some (String.length segment))) /\
               segment = match str_find json_marker rest with
                         | None => rest
                         | Some j => str_take j rest
                         end).
    { destruct (str_find json_marker rest) as [j|] eqn:M.
      - destruct (find_cut _ _ _ M) as (segment & tail & Es & Ls & Ts & _).
        exists segment. split; [|exact Ts]. right. exists tail. now rewrite Ls.
      - exists rest. split; [now left | reflexivity]. }
    destruct S as (segment & Hs & Es).
    assert (T : exists text,
               ((str_find fence segment = None /\ text = segment) \/
                (exists tail, segment = text ++ fence ++ tail /\
                   str_find fence segment = Some (String.length text))) /\
               text = match str_find fence segment with
                      | None => segment
                      | Some k => str_take k segment
                      end).
    { destruct (str_find fence segment) as [k|] eqn:K.
      - destruct (find_cut _ _ _ K) as (text & tail & Et & Lt & Tt & _).
        exists text. split; [|exact Tt]. right. exists tail. now rewrite Lt.
      - exists segment. split; [now left | reflexivity]. }
    destruct T as (text & Ht & Et).
    exists pre, rest, segment, text.
    split; [exact Ec|]. split; [now rewrite Lp|]. split; [exact Hs|].
    split; [exact Ht|].
    rewrite fenced_json_eq, F. cbv zeta. rewrite <- Er, <- Es, <- Et. reflexivity.
  - left. split; [reflexivity | now apply fenced_json_plain].
Qed.

(** * Facts about the alert level *)

Lemma alert_level_normal (x : Q) : (x <= 85)%Q -> alert_level_of x = NORMAL.
Proof.
  intros H. unfold alert_level_of, Qgtb, Qgeb, alert_threshold. compare_cases.
Qed.

Lemma alert_level_warning (x : Q) :
  (85 < x)%Q -> (x <= 95)%Q -> alert_level_of x = WARNING.
Proof.
  intros H1 H2. unfold alert_level_of, Qgtb, Qgeb, alert_threshold. compare_cases.
Qed.

Lemma alert_level_critical (x : Q) :
  (95 < x)%Q -> (x < 100)%Q -> alert_level_of x = CRITICAL.
Proof.
  intros H1 H2. unfold alert_level_of, Qgtb, Qgeb, alert_threshold. compare_cases.
Qed.

Lemma alert_level_emergency (x : Q) : (100 <= x)%Q -> alert_level_of x = EMERGENCY.
Proof.
  intros H. unfold alert_level_of, Qgtb, Qgeb, alert_threshold. compare_cases.
Qed.

(** * Facts about the effects *)

Lemma predict_overflow_run (current_data : sensor_analysis) (weather_data : weather)
    (t : trace) :
  predict_overflow current_data weather_data t
  = (Ok (_parse_prediction (groq (t ++ [ChatCompletion prediction_request])%list)),
     (t ++ [ChatCompletion prediction_request])%list).
Proof. reflexivity. Qed.

Lemma calculate_redirection_run (analysis : sensor_analysis) (prediction : pyval)
    (inventory : list destination_entry) (t : trace) :
  calculate_redirection analysis prediction inventory t
  = (Ok (_parse_actions (groq (t ++ [ChatCompletion planning_request])%list)),
     (t ++ [ChatCompletion planning_request])%list).
Proof. reflexivity. Qed.

Lemma bind_run {A B : Type} (m : M A) (k : A -> M B) (t : trace) :
  bind m k t
  = match m t with
    | (Ok a, t') => k a t'
    | (Raise e, t') => (Raise e, t')
    end.
Proof. reflexivity. Qed.



(** One turn of the loop of step 5: the command is sent, then the two lines
    are printed. *)
Lemma valve_turn (a : RedirectionAction) (t : trace) :
  bind (control_valve (valve_id a) (action a) (percentage a))
       (fun _ => lift (print_values [valve_id a; action a; destination a])) t
  = (if action_printable a then Ok tt else Raise UnicodeEncodeError,
     (t ++ [valve_command a])%list).
Proof.
  unfold bind, control_valve, lift, print_values, action_printable, valve_command.
  cbn [forallb rbind].
  destruct (printable (valve_id a)), (printable (action a)),
    (printable (percentage a)), (printable (destination a)); reflexivity.
Qed.

Lemma execute_valve_controls_cons (a : RedirectionAction)
    (actions : list RedirectionAction) (t : trace) :
  execute_valve_controls (a :: actions) t
  = (if action_printable a
     then execute_valve_controls actions (t ++ [valve_command a])%list
     else (Raise UnicodeEncodeError, (t ++ [valve_command a])%list)).
Proof.
  unfold execute_valve_controls. cbn [for_each].
  rewrite bind_run, valve_turn. now destruct (action_printable a).
Qed.

Lemma execute_valve_controls_run (actions : list RedirectionAction) (t : trace) :
  forallb action_printable actions = true ->
  execute_valve_controls actions t = (Ok tt, (t ++ map valve_command actions)%list).
Proof.
  revert t. induction actions as [|a actions IH]; intros t P.
  - cbn. now rewrite app_nil_r.
  - cbn [forallb] in P. apply Bool.andb_true_iff in P as (Pa & Ps).
    rewrite execute_valve_controls_cons, Pa, (IH _ Ps). cbn [map].
    now rewrite <- app_assoc.
Qed.

Lemma execute_valve_controls_stop (sent : list RedirectionAction)
    (a : RedirectionAction) (rest : list RedirectionAction) (t : trace) :
  forallb action_printable sent = true ->
  action_printable a = false ->
  execute_valve_controls (sent ++ a :: rest) t
  = (Raise UnicodeEncodeError, (t ++ map valve_command (sent ++ [a]))%list).
Proof.
  revert t. induction sent as [|b sent IH]; intros t P U.
  - cbn [app]. now rewrite execute_valve_controls_cons, U.
  - cbn [forallb] in P. apply Bool.andb_true_iff in P as (Pb & Ps).
    cbn [app]. rewrite execute_valve_controls_cons, Pb, (IH _ Ps U). cbn [map].
    now rewrite <- app_assoc.
Qed.

(** However the loop ends, it has sent the commands of the first actions of
    the list, all of them when it ends well, and nothing else. *)
Lemma execute_valve_controls_calls (actions : list RedirectionAction) (t t' : trace)
    (res : result unit) :
  execute_valve_controls actions t = (res, t') ->
  exists sent rest,
    actions = (sent ++ rest)%list /\
    t' = (t ++ map valve_command sent)%list /\
    (forall u, res = Ok u -> rest = []) /\
    (forall e, res = Raise e -> e = UnicodeEncodeError).
Proof.
  revert t. induction actions as [|a actions IH]; intros t Run.
  - cbn in Run. injection Run as <- <-. exists [], [].
    cbn. rewrite app_nil_r. repeat split; congruence.
  - rewrite execute_valve_controls_cons in Run.
    destruct (action_printable a).
    + destruct (IH _ Run) as (sent & rest & -> & -> & K & E).
      exists (a :: sent), rest. cbn [app map]. rewrite <- app_assoc.
      repeat split; assumption.
    + injection Run as <- <-. exists [a], actions.
      repeat split; congruence.
Qed.

Lemma analyze_without_image (sensor_data : WaterSensorData) (t : trace) :
  truthy_path (image_path sensor_data) = None ->
  analyze_sensor_data sensor_data t = (Ok (analysis_dict sensor_data None), t).
Proof. intros H. unfold analyze_sensor_data. now rewrite H. Qed.

Lemma analyze_with_image (sensor_data : WaterSensorData) (path : string) (t : trace) :
  truthy_path (image_path sensor_data) = Some path -> readable path = true ->
  let t' := (t ++ [FileRead path; ChatCompletion vision_request])%list in
  analyze_sensor_data sensor_data t
  = (Ok (analysis_dict sensor_data (Some (_parse_vision_analysis (groq t')))), t').
Proof.
  intros H R. unfold analyze_sensor_data, process_camera_feed. rewrite H.
  unfold bind, emit, lift, chat, ret. rewrite R, <- app_assoc. reflexivity.
Qed.

Lemma analyze_unreadable (sensor_data : WaterSensorData) (path : string) (t : trace) :
  truthy_path (image_path sensor_data) = Some path -> readable path = false ->
  analyze_sensor_data sensor_data t
  = (Raise (FileNotFoundError path), (t ++ [FileRead path])%list).
Proof.
  intros H R. unfold analyze_sensor_data, process_camera_feed. rewrite H.
  unfold bind, emit, lift. now rewrite R.
Qed.

(** Step 1 makes camera calls only. *)
Lemma analyze_calls (sensor_data : WaterSensorData) (t t1 : trace)
    (res : result sensor_analysis) :
  analyze_sensor_data sensor_data t = (res, t1) ->
  exists calls, t1 = (t ++ calls)%list /\ forallb monitoring_event calls = true.
Proof.
  intros A. destruct (truthy_path (image_path sensor_data)) as [path|] eqn:P.
  - destruct (readable path) eqn:R.
    + rewrite (analyze_with_image _ _ t P R) in A. injection A as _ <-.
      now exists [FileRead path; ChatCompletion vision_request].
    + rewrite (analyze_unreadable _ _ t P R) in A. injection A as _ <-.
      now exists [FileRead path].
  - rewrite (analyze_without_image _ t P) in A. injection A as _ <-.
    exists []. now rewrite app_nil_r.
Qed.

Lemma monitoring_no_valve (calls : trace) :
  forallb monitoring_event calls = true -> filter is_valve_command calls = [].
Proof.
  induction calls as [|e calls IH]; [reflexivity|].
  cbn [forallb filter]. intros H. apply Bool.andb_true_iff in H as (He & Hs).
  destruct e; cbn in He |- *; try discriminate; now apply IH.
Qed.

Lemma analyze_result (sensor_data : WaterSensorData) (t t' : trace)
    (analysis : sensor_analysis) :
  analyze_sensor_data sensor_data t = (Ok analysis, t') ->
  exists vision,
    analysis = analysis_dict sensor_data vision /\
    (vision = None <-> truthy_path (image_path sensor_data) = None).
Proof.
  intros A. destruct (truthy_path (image_path sensor_data)) as [path|] eqn:P.
  - destruct (readable path) eqn:R.
    + rewrite (analyze_with_image _ _ t P R) in A. injection A as <- _.
      eexists. split; [reflexivity|]. split; discriminate.
    + rewrite (analyze_unreadable _ _ t P R) in A. discriminate.
  - rewrite (analyze_without_image _ t P) in A. injection A as <- _.
    exists None. split; [reflexivity|]. split; reflexivity.
Qed.

Lemma monitoring_is_query (calls : trace) :
  forallb monitoring_event calls = true -> forallb is_query calls = true.
Proof.
  induction calls as [|e calls IH]; [reflexivity|].
  cbn [forallb]. intros H. apply Bool.andb_true_iff in H as (He & Hs).
  rewrite (IH Hs), Bool.andb_true_r. now destruct e.
Qed.

(** Steps 2 to 7, from the analysis of step 1. *)
Lemma process_from_analysis (sensor_data : WaterSensorData) (t t1 : trace)
    (analysis : sensor_analysis) :
  analyze_sensor_data sensor_data t = (Ok analysis, t1) ->
  let t2 := (t1 ++ [WeatherForecast (location sensor_data)])%list in
  let t3 := (t2 ++ [ChatCompletion prediction_request])%list in
  let prediction := _parse_prediction (groq t3) in
  let t4 := (t3 ++ [ChatCompletion planning_request])%list in
  let actions := _parse_actions (groq t4) in
  let message := generate_alert_message analysis "en" in
  process_overflow_scenario sensor_data t
  = match print_risks prediction with
    | Raise e => (Raise e, t3)
    | Ok _ =>
        if sa_requires_action analysis then
          match execute_valve_controls actions t4 with
          | (Raise e, t5) => (Raise e, t5)
          | (Ok _, t5) =>
              let t6 := (t5 ++ [Notification message ["water_dept"; "field_ops"]])%list in
              match print_text message with
              | Raise e => (Raise e, t6)
              | Ok _ =>
                  let stamp := now t6 in
                  let t7 := (t6 ++ [DatabaseUpdate (sensor_id sensor_data) stamp actions
                                      (sa_alert_level analysis)])%list in
                  match print_values [PyStr (sensor_id sensor_data); PyStr stamp] with
                  | Raise e => (Raise e, t7)
                  | Ok _ =>
                      (Ok {| r_sensor_analysis := analysis; r_prediction := prediction;
                             r_actions_taken := actions |}, t7)
                  end
              end
          end
        else
          (Ok {| r_sensor_analysis := analysis; r_prediction := prediction;
                 r_actions_taken := [] |}, t3)
    end.
Proof.
  intros A. cbv zeta. unfold process_overflow_scenario.
  rewrite bind_run, A.
  rewrite bind_run. unfold get_weather_forecast at 1.
  rewrite bind_run. unfold emit at 1, ret at 1.
  rewrite bind_run, predict_overflow_run.
  rewrite bind_run. unfold lift at 1.
  destruct (print_risks _) as [u|e]; [|reflexivity].
  destruct (sa_requires_action analysis); [|reflexivity].
  rewrite bind_run, calculate_redirection_run.
  rewrite bind_run.
  destruct (execute_valve_controls _ _) as [[u1|e1] t5]; [|reflexivity].
  rewrite bind_run. unfold send_notifications at 1.
  rewrite bind_run. unfold emit at 1, lift at 1.
  destruct (print_text _) as [u2|e2]; [|reflexivity].
  rewrite bind_run. unfold update_database at 1.
  rewrite bind_run. unfold emit at 1, lift at 1.
  destruct (print_values _) as [u3|e3]; reflexivity.
Qed.

Lemma requires_action_iff (sensor_data : WaterSensorData) (vision : option pyval) :
  sa_requires_action (analysis_dict sensor_data vision) = false
  <-> alert_level_of (water_level sensor_data) = NORMAL.
Proof.
  cbn [analysis_dict sa_requires_action].
  destruct (alert_level_of (water_level sensor_data)); cbn; split; congruence.
Qed.

Lemma print_risks_fallback (text : string) :
  print_risks (prediction_fallback text) = Ok tt.
Proof. reflexivity. Qed.

(** A run whose analysis requires no action ends after step 3. *)
Lemma process_without_action (sensor_data : WaterSensorData) (t t1 : trace)
    (analysis : sensor_analysis) :
  analyze_sensor_data sensor_data t = (Ok analysis, t1) ->
  sa_requires_action analysis = false ->
  let t3 := (t1 ++ [WeatherForecast (location sensor_data);
                    ChatCompletion prediction_request])%list in
  let prediction := _parse_prediction (groq t3) in
  process_overflow_scenario sensor_data t
  = (match print_risks prediction with
     | Ok _ => Ok {| r_sensor_analysis := analysis; r_prediction := prediction;
                     r_actions_taken := [] |}
     | Raise e => Raise e
     end, t3).
Proof.
  intros A R. cbv zeta. rewrite (process_from_analysis _ _ _ _ A). cbv zeta.
  rewrite R, <- !app_assoc. cbn [app]. now destruct (print_risks _).
Qed.

(** * The claims *)

(** C1 (amended).  There is no fallback action.  When the planning reply
    fails to parse, the planner returns the empty list, whatever the alert
    level and the destination inventory.  So when the replies to the planning
    request fail to parse, every run that completes, at any alert level
    (Critical and Emergency included), ends with an empty action list and has
    issued no valve command; above the Normal level its only calls after the
    queries are the notification and the database record, which carries an
    empty action list.  Such runs exist: when no reply of the backend parses,
    the run of any reading whose camera image, if any, can be read completes,
    provided the alert message, the sensor id and the time stamps can be
    printed. *)
Theorem C1_unparsable_plan_leaves_no_action :
  (forall (analysis : sensor_analysis) (prediction : pyval)
          (inventory : list destination_entry) (t : trace),
      unparsable (groq (t ++ [ChatCompletion planning_request])%list) ->
      calculate_redirection analysis prediction inventory t
      = (Ok [], (t ++ [ChatCompletion planning_request])%list))
  /\
  ((forall h, unparsable (groq (h ++ [ChatCompletion planning_request])%list)) ->
   forall (sensor_data : WaterSensorData) (t : trace) (r : report) (t' : trace),
     process_overflow_scenario sensor_data t = (Ok r, t') ->
     r_actions_taken r = [] /\
     filter is_valve_command t' = filter is_valve_command t /\
     (alert_level_of (water_level sensor_data) <> NORMAL ->
      exists (queries : trace) (stamp : string),
        t' = (t ++ queries
                ++ [Notification (generate_alert_message (r_sensor_analysis r) "en")
                      ["water_dept"; "field_ops"];
                    DatabaseUpdate (sensor_id sensor_data) stamp []
                      (alert_value (alert_level_of (water_level sensor_data)))])%list /\
        forallb is_query queries = true))
  /\
  ((forall h, unparsable (groq h)) ->
   forall (sensor_data : WaterSensorData) (t : trace),
     (forall path, truthy_path (image_path sensor_data) = Some path ->
                   readable path = true) ->
     has_surrogate (generate_alert_message (analysis_dict sensor_data None) "en")
     = false ->
     has_surrogate (sensor_id sensor_data) = false ->
     (forall h, has_surrogate (now h) = false) ->
     exists r t', process_overflow_scenario sensor_data t = (Ok r, t')).
Proof.
  split; [|split].
  - intros analysis prediction inventory t U.
    rewrite calculate_redirection_run.
    destruct (unparsable_raises _ U) as (text & e & F & L).
    now rewrite (parse_actions_failed _ _ _ F L).
  - intros U sensor_data t r t' Run.
    destruct (analyze_sensor_data sensor_data t) as [[analysis|e] t1] eqn:A.
    + destruct (analyze_calls _ _ _ _ A) as (calls & -> & Mon).
      destruct (analyze_result _ _ _ _ A) as (vision & -> & _).
      rewrite (process_from_analysis _ _ _ _ A) in Run. cbv zeta in Run.
      destruct (print_risks _); [|discriminate].
      destruct (sa_requires_action (analysis_dict sensor_data vision)) eqn:Req.
      * destruct (unparsable_raises _
                    (U (((t ++ calls) ++ [WeatherForecast (location sensor_data)])
                        ++ [ChatCompletion prediction_request])%list))
          as (text & e & F & L).
        rewrite (parse_actions_failed _ _ _ F L) in Run.
        cbn [execute_valve_controls for_each ret] in Run.
        destruct (print_text _); [|discriminate].
        destruct (print_values _); [|discriminate].
        injection Run as <- <-. split; [reflexivity|]. split.
        -- rewrite !filter_app, (monitoring_no_valve _ Mon). cbn.
           now rewrite !app_nil_r.
        -- intros _. cbn [r_sensor_analysis].
           eexists (calls ++ [WeatherForecast (location sensor_data);
                              ChatCompletion prediction_request;
                              ChatCompletion planning_request])%list, _.
           split; [rewrite <- !app_assoc; reflexivity|].
           rewrite forallb_app, (monitoring_is_query _ Mon). reflexivity.
      * injection Run as <- <-. split; [reflexivity|]. split.
        -- rewrite !filter_app, (monitoring_no_valve _ Mon). cbn.
           now rewrite !app_nil_r.
        -- intros Above. now apply requires_action_iff in Req.
    + unfold process_overflow_scenario in Run. rewrite bind_run, A in Run.
      discriminate.
  - intros U sensor_data t Hfile Hmessage Hsensor Hclock.
    assert (A : exists vision t1,
               analyze_sensor_data sensor_data t
               = (Ok (analysis_dict sensor_data vision), t1)).
    { destruct (truthy_path (image_path sensor_data)) as [path|] eqn:P.
      - eexists _, _. apply (analyze_with_image _ _ _ P (Hfile _ eq_refl)).
      - eexists _, _. apply (analyze_without_image _ _ P). }
    destruct A as (vision & t1 & A).
    rewrite (process_from_analysis _ _ _ _ A). cbv zeta.
    destruct (unparsable_raises _ (U (((t1 ++ [WeatherForecast (location sensor_data)])
                ++ [ChatCompletion prediction_request])%list))) as (text & e & F & L).
    rewrite (parse_prediction_failed _ _ _ F L), print_risks_fallback.
    destruct (sa_requires_action _); [|eauto].
    destruct (unparsable_raises _ (U ((((t1 ++ [WeatherForecast (location sensor_data)])
                ++ [ChatCompletion prediction_request])
                ++ [ChatCompletion planning_request])%list))) as (text' & e' & F' & L').
    rewrite (parse_actions_failed _ _ _ F' L').
    cbn [execute_valve_controls for_each ret].
    change (generate_alert_message (analysis_dict sensor_data vision) "en")
      with (generate_alert_message (analysis_dict sensor_data None) "en").
    unfold print_text. rewrite Hmessage.
    unfold print_values. cbn [forallb printable]. rewrite Hsensor, Hclock.
    cbn. eauto.
Qed.

(** C2 (amended).  The Warning bound is exclusive: a water level in [0,85]
    is Normal, one strictly between 85 and 95 is Warning, one strictly between
    95 and 100 is Critical, and 100 or more is Emergency. *)
Theorem C2_alert_level_tiers (x : Q) :
  ((0 <= x)%Q -> (x <= 85)%Q -> alert_level_of x = NORMAL) /\
  ((85 < x)%Q -> (x < 95)%Q -> alert_level_of x = WARNING) /\
  ((95 < x)%Q -> (x < 100)%Q -> alert_level_of x = CRITICAL) /\
  ((100 <= x)%Q -> alert_level_of x = EMERGENCY).
Proof.
  repeat split; intros.
  - now apply alert_level_normal.
  - apply alert_level_warning; [assumption | lra].
  - now apply alert_level_critical.
  - now apply alert_level_emergency.
Qed.

(** C3 (amended).  The planner applies no post-validation.  It sends one
    request and returns the actions of the reply as they are: when the reply
    decodes to an array of elements that have the required keys, the returned
    list has one action per element, in the order of the reply, each field
    holding the value of the reply (priority 5 when the element has none),
    whatever the destination inventory. *)
Theorem C3_plan_returned_as_given (analysis : sensor_analysis) (prediction : pyval)
    (inventory : list destination_entry) (t : trace)
    (text : string) (data : pyval) (items : list pyval) :
  let t' := (t ++ [ChatCompletion planning_request])%list in
  fenced_json (groq t') = Ok text ->
  json_loads text = Ok data ->
  action_array data items ->
  forallb has_required_keys items = true ->
  exists actions,
    calculate_redirection analysis prediction inventory t = (Ok actions, t') /\
    Forall2 built_from items actions.
Proof.
  intros t' F L A W. rewrite calculate_redirection_run. fold t'.
  eexists. split; [reflexivity|].
  now apply (parse_actions_well_formed _ text data).
Qed.

(** C4 (amended).  When the prediction reply fails to parse, the prediction
    stage returns the record with the two keys [error] and [raw], the latter
    holding the text that was given to the decoder; the record is the same at
    every alert level and holds no probability and no degraded flag. *)
Theorem C4_prediction_failure_record (current_data : sensor_analysis)
    (weather_data : weather) (t : trace) (text : string) :
  let t' := (t ++ [ChatCompletion prediction_request])%list in
  fenced_json (groq t') = Ok text ->
  (exists e, json_loads text = Raise e) ->
  exists record,
    predict_overflow current_data weather_data t = (Ok record, t') /\
    record = PyDict [("error", PyStr "parsing_failed"); ("raw", PyStr text)] /\
    py_contains "overflow_probability_6h" record = Ok false /\
    py_contains "overflow_probability_12h" record = Ok false /\
    py_contains "overflow_probability_24h" record = Ok false /\
    py_contains "degraded" record = Ok false.
Proof.
  intros t' F (e & L). rewrite predict_overflow_run. fold t'.
  rewrite (parse_prediction_failed _ _ _ F L).
  eexists. split; [reflexivity|]. repeat split.
Qed.

(** C5 (amended).  No stage retries.  The prediction stage, the planner and
    the camera stage each send exactly one request, whatever the reply.  When
    the text selected from a reply is rejected by the decoder, the prediction
    parser returns the record [error]/[raw] with that text, the vision parser
    returns a default record (water level 0, no overflow, urgency normal)
    with that text, and the plan parser returns the empty list, which keeps
    no text. *)
Theorem C5_single_attempt_and_fallbacks :
  (forall (current_data : sensor_analysis) (weather_data : weather) (t : trace),
      let t' := (t ++ [ChatCompletion prediction_request])%list in
      predict_overflow current_data weather_data t
      = (Ok (_parse_prediction (groq t')), t'))
  /\
  (forall (analysis : sensor_analysis) (prediction : pyval)
          (inventory : list destination_entry) (t : trace),
      let t' := (t ++ [ChatCompletion planning_request])%list in
      calculate_redirection analysis prediction inventory t
      = (Ok (_parse_actions (groq t')), t'))
  /\
  (forall (path : string) (t : trace),
      readable path = true ->
      let t' := (t ++ [FileRead path; ChatCompletion vision_request])%list in
      process_camera_feed path t = (Ok (_parse_vision_analysis (groq t')), t'))
  /\
  (forall (content text : string) (e : exn),
      fenced_json content = Ok text ->
      json_loads text = Raise e ->
      _parse_prediction content
      = PyDict [("error", PyStr "parsing_failed"); ("raw", PyStr text)] /\
      _parse_vision_analysis content
      = PyDict [("water_level", PyInt 0); ("overflow_detected", PyBool false);
                ("urgency", PyStr "normal"); ("raw_analysis", PyStr text)] /\
      _parse_actions content = []).
Proof.
  repeat split.
  - intros path t R t'. unfold process_camera_feed, bind, emit, lift, chat, ret.
    rewrite R. subst t'. now rewrite <- app_assoc.
  - now apply parse_prediction_failed with e.
  - now apply parse_vision_failed with e.
  - now apply parse_actions_failed with text e.
Qed.

(** C6 (amended).  For a reading classified Normal the run makes only the
    calls of steps 1 to 3 (camera, forecast, prediction): no planning request,
    no valve command, no notification, no database update.  A run that
    completes has fetched the forecast, asked for the prediction, and ends
    with an empty action list.  Without a camera image the calls are exactly
    the forecast and the prediction request, and the run completes whenever
    the two risks of the prediction can be printed. *)
Theorem C6_normal_reading_stops_after_prediction (sensor_data : WaterSensorData)
    (t : trace) :
  alert_level_of (water_level sensor_data) = NORMAL ->
  exists calls,
    snd (process_overflow_scenario sensor_data t) = (t ++ calls)%list /\
    forallb monitoring_event calls = true /\
    (forall r, fst (process_overflow_scenario sensor_data t) = Ok r ->
               r_actions_taken r = [] /\
               In (WeatherForecast (location sensor_data)) calls /\
               In (ChatCompletion prediction_request) calls) /\
    (truthy_path (image_path sensor_data) = None ->
     calls = [WeatherForecast (location sensor_data);
              ChatCompletion prediction_request] /\
     (print_risks (_parse_prediction (groq (t ++ calls)%list)) = Ok tt ->
      exists r, fst (process_overflow_scenario sensor_data t) = Ok r)).
Proof.
  intros N.
  destruct (truthy_path (image_path sensor_data)) as [path|] eqn:P.
  - destruct (readable path) eqn:R.
    + pose proof (analyze_with_image _ _ t P R) as A. cbv zeta in A.
      rewrite (process_without_action _ _ _ _ A (proj2 (requires_action_iff _ _) N)).
      cbv zeta. cbn [fst snd].
      exists [FileRead path; ChatCompletion vision_request;
              WeatherForecast (location sensor_data);
              ChatCompletion prediction_request].
      split; [now rewrite <- app_assoc|]. split; [reflexivity|].
      split; [|discriminate].
      intros r. destruct (print_risks _); [|discriminate].
      intros [= <-]. cbn. intuition.
    + unfold process_overflow_scenario.
      rewrite bind_run, (analyze_unreadable _ _ t P R). cbn [fst snd].
      exists [FileRead path]. repeat split; discriminate.
  - pose proof (analyze_without_image _ t P) as A.
    rewrite (process_without_action _ _ _ _ A (proj2 (requires_action_iff _ _) N)).
    cbv zeta. cbn [fst snd].
    exists [WeatherForecast (location sensor_data); ChatCompletion prediction_request].
    split; [reflexivity|]. split; [reflexivity|]. split.
    + intros r. destruct (print_risks _); [|discriminate].
      intros [= <-]. cbn. intuition.
    + intros _. split; [reflexivity|]. intros ->. eauto.
Qed.

(** C7 (amended).  There is no per-valve cache.  Executing a list of actions
    sends one valve command per element of the list, in the order of the list,
    so a tuple that occurs twice is sent twice.  The loop prints the valve id,
    the action, the percentage and the destination of each action it has sent:
    when these can be printed for every action, all the commands are sent; if
    not, the loop raises at the first action for which they cannot (one of
    them is a string with a lone surrogate), after the command of that action
    and before any command of the actions that follow. *)
Theorem C7_one_command_per_action (actions : list RedirectionAction) (t : trace) :
  (forallb action_printable actions = true ->
   execute_valve_controls actions t = (Ok tt, (t ++ map valve_command actions)%list))
  /\
  (forall (sent : list RedirectionAction) (a : RedirectionAction)
          (rest : list RedirectionAction),
      actions = (sent ++ a :: rest)%list ->
      forallb action_printable sent = true ->
      action_printable a = false ->
      execute_valve_controls actions t
      = (Raise UnicodeEncodeError, (t ++ map valve_command (sent ++ [a]))%list)).
Proof.
  split.
  - apply execute_valve_controls_run.
  - intros sent a rest -> P U. now apply execute_valve_controls_stop.
Qed.

(** C8 (amended).  A reading with water level 92.5 and no camera image, at
    any flow rate, is classified Warning, and requires action. *)
Theorem C8_scenario_A_is_warning (sensor_data : WaterSensorData) (t : trace) :
  (water_level sensor_data == 185 # 2)%Q ->
  truthy_path (image_path sensor_data) = None ->
  exists analysis,
    analyze_sensor_data sensor_data t = (Ok analysis, t) /\
    sa_alert_level analysis = alert_value WARNING /\
    sa_requires_action analysis = true.
Proof.
  intros H P. rewrite (analyze_without_image _ t P).
  eexists. split; [reflexivity|].
  cbn [analysis_dict sa_alert_level sa_requires_action].
  rewrite (alert_level_warning (water_level sensor_data)); [split; reflexivity| |];
    rewrite H; [reflexivity | discriminate].
Qed.

(** C9 (amended).  The text given to the decoder is selected from the
    reply by a search for the marker, three backticks and [json], wherever it
    stands: at the start of a line, in the middle of one, inside a JSON string
    or as the start of a longer label.  When the marker does not occur, the
    whole reply is selected.  When it occurs, take the segment that runs from
    the end of the first marker to the next marker, or to the end of the reply
    when there is no other marker: the text selected is the segment up to its
    first fence of three backticks, or the whole segment when it holds no
    fence.  Each parser decodes the selected text, and nothing else. *)
Theorem C9_fenced_json_selection (content : string) :
  ((str_find json_marker content = None /\ fenced_json content = Ok content)
   \/
   (exists pre rest segment text : string,
       content = pre ++ json_marker ++ rest /\
       str_find json_marker content = Some (String.length pre) /\
       ((str_find json_marker rest = None /\ segment = rest) \/
        (exists tail, rest = segment ++ json_marker ++ tail /\
                      str_find json_marker rest = Some (String.length segment))) /\
       ((str_find fence segment = None /\ text = segment) \/
        (exists tail, segment = text ++ fence ++ tail /\
                      str_find fence segment = Some (String.length text))) /\
       fenced_json content = Ok text))
  /\
  (forall (text : string) (v : pyval),
      fenced_json content = Ok text ->
      json_loads text = Ok v ->
      _parse_prediction content = v /\
      _parse_vision_analysis content = v /\
      parse_actions_body content
      = rbind (py_iter (unwrap_actions v)) (map_result action_of))
  /\
  (forall (text : string) (e : exn),
      fenced_json content = Ok text ->
      json_loads text = Raise e ->
      _parse_prediction content = prediction_fallback text /\
      _parse_vision_analysis content = vision_fallback text /\
      parse_actions_body content = Raise e).
Proof.
  split; [|split].
  - apply fenced_json_cases.
  - intros text v F L. split; [|split].
    + now apply parse_prediction_ok with text.
    + now apply parse_vision_ok with text.
    + now apply parse_actions_decoded with text.
  - intros text e F L. split; [|split].
    + now apply parse_prediction_failed with e.
    + now apply parse_vision_failed with e.
    + unfold parse_actions_body. now rewrite F; cbn [rbind]; rewrite L.
Qed.

(** C10.  Plan parsing is all or nothing.  Let the reply decode to an array
    of actions, bare or under the key [actions] of an object.  If one element
    lacks one of the keys [valve_id], [action], [percentage], [destination],
    [reason], the planner returns the empty list.  If every element has these
    keys, the planner returns one action per element, and an element without
    a [priority] gets priority 5. *)
Theorem C10_plan_parsing_all_or_nothing (content text : string) (data : pyval)
    (items : list pyval) :
  fenced_json content = Ok text ->
  json_loads text = Ok data ->
  action_array data items ->
  ((exists a k, In a items /\ In k required_keys /\ has_key k a = false) ->
   _parse_actions content = []) /\
  (forallb has_required_keys items = true ->
   Forall2 built_from items (_parse_actions content) /\
   forall a act, In a items -> built_from a act -> has_key "priority" a = false ->
                 priority act = PyInt 5).
Proof.
  intros F L A. split.
  - intros (a & k & I & K & H). now apply (parse_actions_malformed _ text data items a k).
  - intros W. split; [now apply (parse_actions_well_formed _ text data)|].
    intros a act _ (_ & _ & _ & _ & B & _) H.
    destruct a; try discriminate. cbn [has_key] in H. cbn [py_get] in B.
    destruct (dict_lookup "priority" entries); [discriminate | congruence].
Qed.

(** * Further facts about the selection of the JSON text *)

(** X1.  The selection never raises: the two index operations of the idiom
    are always in range.  The selected text is a contiguous part of the reply,
    nothing is added or rewritten. *)
Theorem X1_selection_is_a_part_of_the_reply (content : string) :
  exists pre text post : string,
    fenced_json content = Ok text /\ content = pre ++ text ++ post.
Proof.
  rewrite fenced_json_eq.
  destruct (str_find json_marker content) as [i|] eqn:F.
  - cbv zeta. set (rest := str_drop (i + String.length json_marker) content).
    set (after := match str_find json_marker rest with
                  | Some j => str_take j rest
                  | None => rest
                  end).
    assert (A : exists x, rest = after ++ x).
    { subst after. destruct (str_find json_marker rest) as [j|].
      - exists (str_drop j rest). symmetry. apply take_drop.
      - exists EmptyString. symmetry. apply str_app_nil_r. }
    destruct A as (x & A).
    assert (T : exists text y,
               match str_find fence after with
               | Some k => str_take k after
               | None => after
               end = text /\ after = text ++ y).
    { destruct (str_find fence after) as [k|].
      - exists (str_take k after), (str_drop k after).
        split; [reflexivity | symmetry; apply take_drop].
      - exists after, EmptyString. split; [reflexivity | symmetry; apply str_app_nil_r]. }
    destruct T as (text & y & -> & T).
    exists (str_take i content ++ json_marker), text, (y ++ x).
    split; [reflexivity|].
    rewrite (find_split _ _ _ F) at 1. fold rest.
    rewrite A, T, !str_app_assoc. reflexivity.
  - exists EmptyString, content, EmptyString.
    split; [reflexivity|]. cbn [append]. symmetry. apply str_app_nil_r.
Qed.

(** X2.  Selecting twice is selecting once.  When the reply has a marker,
    the text given to the decoder holds no fence of three backticks, hence no
    marker. *)
Theorem X2_selection_is_idempotent (content text : string) :
  fenced_json content = Ok text ->
  fenced_json text = Ok text /\
  (str_find json_marker content <> None -> str_find fence text = None).
Proof.
  intros H. pose proof (fenced_json_eq content) as E. rewrite H in E.
  destruct (str_find json_marker content) as [i|] eqn:F.
  - cbv zeta in E.
    match type of E with
    | context [str_find fence ?a] => set (after := a) in E
    end.
    assert (N : str_find fence text = None).
    { destruct (str_find fence after) as [k|] eqn:K; injection E as ->.
      - apply find_in_take; [discriminate | exact K].
      - exact K. }
    split; [|intros _; exact N].
    apply fenced_json_plain. now apply no_fence_no_marker.
  - injection E as ->. split; [now apply fenced_json_plain | congruence].
Qed.

(** * Further facts about the plan parser and the alert level *)

(** X3.  A reply that decodes to anything but an array of actions (bare or
    under [actions]) gives no action: a lone action object, a string, a
    number, [null].  Nothing is salvaged from it. *)
Theorem X3_plan_that_is_not_an_array_gives_no_action (content text : string)
    (data : pyval) :
  fenced_json content = Ok text ->
  json_loads text = Ok data ->
  (forall items, unwrap_actions data <> PyList items) ->
  _parse_actions content = [].
Proof.
  intros F L N. unfold _parse_actions.
  rewrite (parse_actions_decoded _ _ _ F L).
  destruct (unwrap_actions data) as [| | | |s|items|d] eqn:U; try reflexivity.
  - now destruct s.
  - now destruct (N items).
  - now destruct d as [|[k v] d].
Qed.

(** X4.  The alert level never goes down when the water level goes up, and
    two readings of the same value get the same level. *)
Theorem X4_alert_level_is_monotone (x y : Q) :
  ((x <= y)%Q -> alert_rank (alert_level_of x) <= alert_rank (alert_level_of y)) /\
  ((x == y)%Q -> alert_level_of x = alert_level_of y).
Proof.
  split; intros H; unfold alert_level_of, Qgtb, Qgeb, alert_threshold;
    repeat match goal with
           | |- context [(?a ?= ?b)%Q] =>
               let C := fresh "C" in
               destruct (a ?= b)%Q eqn:C;
               [apply Qeq_alt in C | apply Qlt_alt in C | apply Qgt_alt in C]
           end;
    first [reflexivity | cbn; lia | exfalso; lra].
Qed.

Lemma alert_level_above_85 (x : Q) : (85 < x)%Q -> alert_level_of x <> NORMAL.
Proof.
  intros H. destruct (Qlt_le_dec 95 x) as [H95|H95].
  - destruct (Qlt_le_dec x 100) as [H100|H100].
    + now rewrite alert_level_critical.
    + now rewrite alert_level_emergency.
  - now rewrite alert_level_warning.
Qed.

(** X5.  An analysis requires action exactly when the water level is above
    85; at 85 itself it does not. *)
Theorem X5_action_required_iff_above_85 (sensor_data : WaterSensorData) (t t' : trace)
    (analysis : sensor_analysis) :
  analyze_sensor_data sensor_data t = (Ok analysis, t') ->
  (sa_requires_action analysis = true <-> (85 < water_level sensor_data)%Q).
Proof.
  intros A. destruct (analyze_result _ _ _ _ A) as (vision & -> & _).
  split.
  - intros R. destruct (Qlt_le_dec 85 (water_level sensor_data)) as [H|H]; [exact H|].
    rewrite (proj2 (requires_action_iff sensor_data vision)) in R; [discriminate|].
    now apply alert_level_normal.
  - intros H. destruct (sa_requires_action _) eqn:R; [reflexivity|].
    apply requires_action_iff in R. now apply alert_level_above_85 in H.
Qed.

(** X6.  The analysis copies the identity, place, level, flow and time of the
    reading, and its alert level is that of the water level alone: the camera
    analysis is attached but never changes the level.  The camera analysis is
    present exactly when the reading has a non-empty image path. *)
Theorem X6_analysis_follows_the_reading (sensor_data : WaterSensorData) (t t' : trace)
    (analysis : sensor_analysis) :
  analyze_sensor_data sensor_data t = (Ok analysis, t') ->
  sa_sensor_id analysis = sensor_id sensor_data /\
  sa_location analysis = location sensor_data /\
  sa_water_level analysis = water_level sensor_data /\
  sa_flow_rate analysis = flow_rate sensor_data /\
  sa_timestamp analysis = timestamp sensor_data /\
  sa_alert_level analysis = alert_value (alert_level_of (water_level sensor_data)) /\
  (sa_vision_analysis analysis = None <-> truthy_path (image_path sensor_data) = None).
Proof.
  intros A. destruct (analyze_result _ _ _ _ A) as (vision & -> & V).
  cbn. repeat split; try reflexivity; apply V.
Qed.

(** * Further facts about the workflow *)

Lemma valve_commands_only (actions : list RedirectionAction) :
  filter is_valve_command (map valve_command actions) = map valve_command actions /\
  filter is_completion (map valve_command actions) = [].
Proof.
  induction actions as [|a actions (IH1 & IH2)]; [split; reflexivity|].
  cbn. now rewrite IH1, IH2.
Qed.

(** X7.  When the camera image of a reading cannot be opened, the run raises
    at once, at any alert level: the file read is its only call, so no
    forecast, no backend request, no valve command, no notification and no
    database update is made. *)
Theorem X7_unreadable_image_aborts_the_run (sensor_data : WaterSensorData)
    (path : string) (t : trace) :
  truthy_path (image_path sensor_data) = Some path ->
  readable path = false ->
  process_overflow_scenario sensor_data t
  = (Raise (FileNotFoundError path), (t ++ [FileRead path])%list).
Proof.
  intros P R. unfold process_overflow_scenario.
  now rewrite bind_run, (analyze_unreadable _ _ t P R).
Qed.


(** X9.  The prediction is not checked before its risks are printed.  When
    the reply decodes to an object that has the 6-hour probability but not the
    12-hour one, the run prints the first risk and raises a key error on the
    second; when the first risk is a string that cannot be printed, it raises
    the encoding error instead.  When the reply decodes to [null], a boolean
    or a number, the run raises a type error.  In each case the run stops
    after the prediction request and before planning, at any alert level. *)
Theorem X9_incomplete_prediction_aborts_the_run (sensor_data : WaterSensorData)
    (t t1 : trace) (analysis : sensor_analysis) (text : string) (data : pyval) :
  analyze_sensor_data sensor_data t = (Ok analysis, t1) ->
  let t' := (t1 ++ [WeatherForecast (location sensor_data);
                    ChatCompletion prediction_request])%list in
  fenced_json (groq t') = Ok text ->
  json_loads text = Ok data ->
  (forall d v, data = PyDict d ->
               dict_lookup "overflow_probability_6h" d = Some v ->
               dict_lookup "overflow_probability_12h" d = None ->
               process_overflow_scenario sensor_data t
               = (Raise (if printable v then KeyError "overflow_probability_12h"
                         else UnicodeEncodeError), t')) /\
  (match data with
   | PyNone | PyBool _ | PyInt _ | PyFloat _ => True
   | _ => False
   end ->
   process_overflow_scenario sensor_data t = (Raise TypeError, t')).
Proof.
  intros A t' F L.
  assert (Run : forall e, print_risks data = Raise e ->
                          process_overflow_scenario sensor_data t = (Raise e, t')).
  { intros e P. rewrite (process_from_analysis _ _ _ _ A). cbv zeta.
    replace ((t1 ++ [WeatherForecast (location sensor_data)])
             ++ [ChatCompletion prediction_request])%list with t'
      by (subst t'; now rewrite <- app_assoc).
    now rewrite (parse_prediction_ok _ _ _ F L), P. }
  split.
  - intros d v -> K6 K12. apply Run.
    unfold print_risks. cbn [py_contains py_getitem]. rewrite K6. cbn [rbind].
    unfold print_values. cbn [forallb]. rewrite Bool.andb_true_r.
    destruct (printable v); cbn [rbind]; [|reflexivity].
    now rewrite K12.
  - intros S. apply Run. now destruct data.
Qed.

(** X10.  A completed run for a reading that requires action has made its
    calls in this order: queries only (camera, forecast, the two backend
    requests), then one valve command for each action of the report, in the
    order of the report, then one notification to the water department and
    the field operators, then one database record that carries the actions of
    the report and its alert level.  The notification and the record are made
    also when the plan is empty. *)
Theorem X10_actionable_run_effects (sensor_data : WaterSensorData) (t t' : trace)
    (r : report) :
  process_overflow_scenario sensor_data t = (Ok r, t') ->
  sa_requires_action (r_sensor_analysis r) = true ->
  exists (queries : trace) (stamp : string),
    t' = (t ++ queries ++ map valve_command (r_actions_taken r)
            ++ [Notification (generate_alert_message (r_sensor_analysis r) "en")
                  ["water_dept"; "field_ops"];
                DatabaseUpdate (sensor_id sensor_data) stamp (r_actions_taken r)
                  (sa_alert_level (r_sensor_analysis r))])%list /\
    forallb is_query queries = true.
Proof.
  intros Run Req.
  destruct (analyze_sensor_data sensor_data t) as [[analysis|e1] t1] eqn:A.
  - destruct (analyze_calls _ _ _ _ A) as (calls & -> & Mon).
    rewrite (process_from_analysis _ _ _ _ A) in Run. cbv zeta in Run.
    destruct (print_risks _); [|discriminate].
    destruct (sa_requires_action analysis) eqn:R.
    + destruct (execute_valve_controls _ _) as [[u1|e1] t5] eqn:X; [|discriminate].
      destruct (execute_valve_controls_calls _ _ _ _ X) as (sent & rest & Es & -> & K & _).
      rewrite (K _ eq_refl), app_nil_r in Es.
      destruct (print_text _); [|discriminate].
      destruct (print_values _); [|discriminate].
      injection Run as <- <-. cbn [r_sensor_analysis r_actions_taken].
      eexists (calls ++ [WeatherForecast (location sensor_data);
                         ChatCompletion prediction_request;
                         ChatCompletion planning_request])%list, _.
      split; [rewrite Es, <- !app_assoc; reflexivity|].
      rewrite forallb_app, (monitoring_is_query _ Mon). reflexivity.
    + injection Run as <- _. cbn [r_sensor_analysis] in Req. congruence.
  - unfold process_overflow_scenario in Run. rewrite bind_run, A in Run.
    discriminate.
Qed.

(** X11.  A run never sends more than three backend requests, and never
    more than two for a reading without camera image, whatever the replies
    are and however the run ends. *)
Theorem X11_at_most_three_requests (sensor_data : WaterSensorData) (t t' : trace)
    (res : result report) :
  process_overflow_scenario sensor_data t = (res, t') ->
  exists calls,
    t' = (t ++ calls)%list /\
    List.length (filter is_completion calls) <= 3 /\
    (truthy_path (image_path sensor_data) = None ->
     List.length (filter is_completion calls) <= 2).
Proof.
  intros Run.
  assert (A : exists r1 t1 calls,
             analyze_sensor_data sensor_data t = (r1, t1) /\
             t1 = (t ++ calls)%list /\
             List.length (filter is_completion calls) <= 1 /\
             (truthy_path (image_path sensor_data) = None ->
              List.length (filter is_completion calls) = 0)).
  { destruct (truthy_path (image_path sensor_data)) as [path|] eqn:P.
    - destruct (readable path) eqn:R.
      + eexists _, _, _. split; [apply (analyze_with_image _ _ t P R)|].
        split; [reflexivity|]. cbn. split; [lia | discriminate].
      + eexists _, _, _. split; [apply (analyze_unreadable _ _ t P R)|].
        split; [reflexivity|]. cbn. split; [lia | discriminate].
    - eexists _, _, []. split; [apply (analyze_without_image _ t P)|].
      split; [now rewrite app_nil_r|]. cbn. split; [lia | reflexivity]. }
  destruct A as ([analysis|e1] & t1 & calls & A & -> & B1 & B0).
  - rewrite (process_from_analysis _ _ _ _ A) in Run. cbv zeta in Run.
    assert (Count : forall (sent : list RedirectionAction) (tail : trace),
               filter is_completion tail = [] ->
               let made := (calls ++ [WeatherForecast (location sensor_data)]
                              ++ [ChatCompletion prediction_request]
                              ++ [ChatCompletion planning_request]
                              ++ map valve_command sent ++ tail)%list in
               List.length (filter is_completion made) <= 3 /\
               (truthy_path (image_path sensor_data) = None ->
                List.length (filter is_completion made) <= 2)).
    { intros sent tail T. cbv zeta.
      rewrite !filter_app, (proj2 (valve_commands_only _)), T. cbn.
      rewrite !length_app. cbn. split; [lia|]. intros P. rewrite (B0 P). lia. }
    destruct (print_risks _).
    + destruct (sa_requires_action analysis).
      * destruct (execute_valve_controls _ _) as [[u1|e1] t5] eqn:X;
          destruct (execute_valve_controls_calls _ _ _ _ X) as (sent & rest & _ & -> & _).
        -- destruct (print_text _).
           ++ destruct (print_values _); injection Run as _ <-;
                (eexists; split;
                 [rewrite <- !app_assoc; reflexivity | now apply Count]).
           ++ injection Run as _ <-.
              eexists; split;
                [rewrite <- !app_assoc; reflexivity | now apply Count].
        -- injection Run as _ <-.
           eexists; split;
             [rewrite <- (app_nil_r (map valve_command sent)), <- !app_assoc;
              reflexivity | now apply Count].
      * injection Run as _ <-.
        eexists. split; [rewrite <- !app_assoc; reflexivity|].
        rewrite !filter_app. cbn. rewrite !length_app. cbn.
        split; [lia|]. intros P. rewrite (B0 P). lia.
    + injection Run as _ <-.
      eexists. split; [rewrite <- !app_assoc; reflexivity|].
      rewrite !filter_app. cbn. rewrite !length_app. cbn.
      split; [lia|]. intros P. rewrite (B0 P). lia.
  - unfold process_overflow_scenario in Run. rewrite bind_run, A in Run.
    injection Run as _ <-. exists calls. split; [reflexivity|].
    split; [lia|]. intros P. rewrite (B0 P). lia.
Qed.

End Agents.

(** * The claims on sample runs

    From here on the oracles are the reference decoder and the sample
    backends, file systems and clock. *)

Lemma refusal_unparsable : unparsable Json.loads refusal.
Proof.
  intros text F. vm_compute in F. injection F as <-.
  exists JSONDecodeError. vm_compute. reflexivity.
Defined.

(** C1, refuted as stated: an Emergency run whose replies do not parse ends
    with no action at all, and the planner returns the empty list. *)
Lemma C1_emergency_run_without_action :
  exists r t',
    process_overflow_scenario Json.loads refusing_backend no_file fixed_clock
      decimal_str (reading_at 100) [] = (Ok r, t') /\
    sa_alert_level (r_sensor_analysis r) = alert_value EMERGENCY /\
    r_actions_taken r = [] /\
    filter is_valve_command t' = [] /\
    _parse_actions Json.loads refusal = [].
Proof.
  eexists _, _. split; [vm_compute; reflexivity|].
  repeat split.
Qed.

Lemma C1_witness :
  calculate_redirection Json.loads refusing_backend (sample_analysis 100) PyNone
    available_destinations []
  = (Ok [], [ChatCompletion planning_request]) /\
  exists r t',
    process_overflow_scenario Json.loads refusing_backend one_image fixed_clock
      decimal_str (reading_at 100) [] = (Ok r, t') /\
    r_actions_taken r = [] /\
    filter is_valve_command t' = [] /\
    exists (queries : trace) (stamp : string),
      t' = ([] ++ queries
              ++ [Notification
                    (generate_alert_message decimal_str (r_sensor_analysis r) "en")
                    ["water_dept"; "field_ops"];
                  DatabaseUpdate (sensor_id (reading_at 100)) stamp []
                    (alert_value (alert_level_of (water_level (reading_at 100))))])%list /\
      forallb is_query queries = true.
Proof.
  split.
  - apply (proj1 (C1_unparsable_plan_leaves_no_action Json.loads refusing_backend
                    one_image fixed_clock decimal_str)).
    exact refusal_unparsable.
  - assert (Run : exists r t',
               process_overflow_scenario Json.loads refusing_backend one_image
                 fixed_clock decimal_str (reading_at 100) [] = (Ok r, t')).
    { apply (proj2 (proj2 (C1_unparsable_plan_leaves_no_action Json.loads
                             refusing_backend one_image fixed_clock decimal_str))
               (fun h => refusal_unparsable) (reading_at 100) []).
      - intros path P. vm_compute in P. discriminate P.
      - vm_compute. reflexivity.
      - vm_compute. reflexivity.
      - intros h. vm_compute. reflexivity. }
    destruct Run as (r & t' & Run). exists r, t'. split; [exact Run|].
    destruct (proj1 (proj2 (C1_unparsable_plan_leaves_no_action Json.loads
                              refusing_backend one_image fixed_clock decimal_str))
                (fun h => refusal_unparsable) (reading_at 100) [] r t' Run)
      as (E & V & N).
    split; [exact E|]. split; [exact V|].
    apply N. vm_compute. discriminate.
Defined.

(** C2, refuted as stated: a water level of exactly 85 is Normal. *)
Lemma C2_level_85_is_normal :
  alert_level_of 85 = NORMAL /\ alert_level_of 85 <> WARNING.
Proof. split; [reflexivity | discriminate]. Qed.

Lemma C2_witness :
  alert_level_of 30 = NORMAL /\ alert_level_of 90 = WARNING /\
  alert_level_of 97 = CRITICAL /\ alert_level_of 100 = EMERGENCY.
Proof.
  split; [|split; [|split]].
  - apply (proj1 (C2_alert_level_tiers 30)); unfold Qle; simpl; lia.
  - apply (proj1 (proj2 (C2_alert_level_tiers 90))); unfold Qlt; simpl; lia.
  - apply (proj1 (proj2 (proj2 (C2_alert_level_tiers 97)))); unfold Qlt; simpl; lia.
  - apply (proj2 (proj2 (proj2 (C2_alert_level_tiers 100)))); unfold Qle; simpl; lia.
Defined.

(** C3, refuted as stated: the planner returns a plan that breaks each of
    the five post-validation rules of the specification. *)
Lemma C3_plan_is_not_validated :
  exists actions,
    fst (calculate_redirection Json.loads (backend_by_model risk_reply plan_unvalidated)
           (sample_analysis 96) PyNone available_destinations [])
    = Ok actions /\
    actions = [plan_action "V1" "open" 150 "lake_9" 2 "relieve tank";
               plan_action "V1" "close" 40 "tank_drinking_1" 1 "protect supply"] /\
    forallb spec_percentage_in_range actions = false /\
    forallb spec_kind_matches_percentage actions = false /\
    forallb (spec_known_destination available_destinations) actions = false /\
    spec_unique_valves actions = false /\
    spec_sorted_by_priority actions = false.
Proof.
  eexists. split; [vm_compute; reflexivity|].
  repeat split.
Qed.

Lemma C3_witness :
  exists actions,
    calculate_redirection Json.loads (backend_by_model risk_reply plan_unvalidated)
      (sample_analysis 96) PyNone available_destinations []
    = (Ok actions, [ChatCompletion planning_request]) /\
    Forall2 built_from unvalidated_elements actions.
Proof.
  apply (C3_plan_returned_as_given Json.loads
           (backend_by_model risk_reply plan_unvalidated)
           (sample_analysis 96) PyNone available_destinations []
           plan_unvalidated (PyList unvalidated_elements) unvalidated_elements).
  - vm_compute. reflexivity.
  - vm_compute. reflexivity.
  - left. reflexivity.
  - vm_compute. reflexivity.
Defined.

(** C4, refuted as stated: at a Critical level the failed prediction holds
    no probability and no degraded flag. *)
Lemma C4_critical_failure_has_no_probability :
  exists record,
    fst (predict_overflow Json.loads refusing_backend (sample_analysis 97)
           sample_weather []) = Ok record /\
    sa_alert_level (sample_analysis 97) = alert_value CRITICAL /\
    py_getitem record "overflow_probability_6h"
    = Raise (KeyError "overflow_probability_6h") /\
    py_getitem record "overflow_probability_12h"
    = Raise (KeyError "overflow_probability_12h") /\
    py_getitem record "overflow_probability_24h"
    = Raise (KeyError "overflow_probability_24h") /\
    py_getitem record "degraded" = Raise (KeyError "degraded").
Proof.
  eexists. split; [vm_compute; reflexivity|].
  repeat split.
Qed.

Lemma C4_witness :
  exists record,
    predict_overflow Json.loads refusing_backend (sample_analysis 97) sample_weather []
    = (Ok record, [ChatCompletion prediction_request]) /\
    record = PyDict [("error", PyStr "parsing_failed"); ("raw", PyStr refusal)] /\
    py_contains "overflow_probability_6h" record = Ok false /\
    py_contains "overflow_probability_12h" record = Ok false /\
    py_contains "overflow_probability_24h" record = Ok false /\
    py_contains "degraded" record = Ok false.
Proof.
  apply (C4_prediction_failure_record Json.loads refusing_backend
           (sample_analysis 97) sample_weather [] refusal).
  - vm_compute. reflexivity.
  - exists JSONDecodeError. vm_compute. reflexivity.
Defined.

(** C5, refuted as stated: the first reply does not parse and the second
    would, yet the prediction stage sends one request and returns the failure
    record; and the vision parser answers a failure with a water level of 0. *)
Lemma C5_no_retry :
  predict_overflow Json.loads (backend_by_turn [refusal; risk_reply])
    (sample_analysis 97) sample_weather []
  = (Ok (PyDict [("error", PyStr "parsing_failed"); ("raw", PyStr refusal)]),
     [ChatCompletion prediction_request]) /\
  (exists v,
      Json.loads (backend_by_turn [refusal; risk_reply]
                    [ChatCompletion prediction_request;
                     ChatCompletion prediction_request]) = Ok v) /\
  py_getitem (_parse_vision_analysis Json.loads refusal) "water_level" = Ok (PyInt 0).
Proof.
  split; [vm_compute; reflexivity|].
  split; [eexists; vm_compute; reflexivity|].
  vm_compute. reflexivity.
Qed.

Lemma C5_witness :
  process_camera_feed Json.loads refusing_backend one_image camera_image []
  = (Ok (_parse_vision_analysis Json.loads refusal),
     [FileRead camera_image; ChatCompletion vision_request]) /\
  _parse_prediction Json.loads refusal
  = PyDict [("error", PyStr "parsing_failed"); ("raw", PyStr refusal)] /\
  _parse_vision_analysis Json.loads refusal
  = PyDict [("water_level", PyInt 0); ("overflow_detected", PyBool false);
            ("urgency", PyStr "normal"); ("raw_analysis", PyStr refusal)] /\
  _parse_actions Json.loads refusal = [].
Proof.
  split.
  - apply (proj1 (proj2 (proj2 (C5_single_attempt_and_fallbacks Json.loads
                                  refusing_backend one_image)))
             camera_image []).
    vm_compute. reflexivity.
  - apply (proj2 (proj2 (proj2 (C5_single_attempt_and_fallbacks Json.loads
                                  refusing_backend one_image)))
             refusal refusal JSONDecodeError).
    + vm_compute. reflexivity.
    + vm_compute. reflexivity.
Defined.

(** C6, refuted as stated: the run for a reading of 30 fetches the forecast
    and asks the backend for a prediction. *)
Lemma C6_normal_run_fetches_and_predicts :
  alert_level_of (water_level (reading_at 30)) = NORMAL /\
  snd (process_overflow_scenario Json.loads (backend_by_model risk_reply plan_repeated)
         no_file fixed_clock decimal_str (reading_at 30) [])
  = [WeatherForecast (location (reading_at 30)); ChatCompletion prediction_request].
Proof. split; vm_compute; reflexivity. Qed.

Lemma C6_witness :
  exists calls,
    snd (process_overflow_scenario Json.loads (backend_by_model risk_reply plan_repeated)
           no_file fixed_clock decimal_str (reading_at 30) []) = calls /\
    forallb monitoring_event calls = true /\
    exists r,
      fst (process_overflow_scenario Json.loads
             (backend_by_model risk_reply plan_repeated)
             no_file fixed_clock decimal_str (reading_at 30) []) = Ok r /\
      r_actions_taken r = [].
Proof.
  destruct (C6_normal_reading_stops_after_prediction Json.loads
              (backend_by_model risk_reply plan_repeated)
              no_file fixed_clock decimal_str (reading_at 30) [] eq_refl)
    as (calls & E & Mon & Done & Bare).
  exists calls. split; [exact E|]. split; [exact Mon|].
  destruct (Bare eq_refl) as (-> & Completes).
  destruct Completes as (r & R); [vm_compute; reflexivity|].
  exists r. split; [exact R|]. exact (proj1 (Done r R)).
Defined.

(** C7, refuted as stated: a plan that lists the same tuple twice sends two
    valve commands. *)
Lemma C7_repeated_action_sent_twice :
  filter is_valve_command
    (snd (process_overflow_scenario Json.loads
            (backend_by_model risk_reply plan_repeated)
            no_file fixed_clock decimal_str (reading_at 96) []))
  = [ValveControl (PyStr "V1") (PyStr "open") (PyInt 100);
     ValveControl (PyStr "V1") (PyStr "open") (PyInt 100)].
Proof. vm_compute. reflexivity. Qed.

Lemma C7_witness :
  execute_valve_controls fixed_clock
    [plan_action "V1" "open" 100 "tank_drinking_1" 1 "relieve tank";
     plan_action "V1" "open" 100 "tank_drinking_1" 1 "relieve tank"] []
  = (Ok tt, [ValveControl (PyStr "V1") (PyStr "open") (PyInt 100);
             ValveControl (PyStr "V1") (PyStr "open") (PyInt 100)]) /\
  exists first second third,
    _parse_actions Json.loads plan_unprintable = [first; second; third] /\
    printable (destination second) = false /\
    execute_valve_controls fixed_clock [first; second; third] []
    = (Raise UnicodeEncodeError, [valve_command first; valve_command second]).
Proof.
  split.
  - apply (proj1 (C7_one_command_per_action fixed_clock
                    [plan_action "V1" "open" 100 "tank_drinking_1" 1 "relieve tank";
                     plan_action "V1" "open" 100 "tank_drinking_1" 1 "relieve tank"]
                    [])).
    vm_compute. reflexivity.
  - eexists _, _, _. split; [vm_compute; reflexivity|].
    split; [vm_compute; reflexivity|].
    eapply (proj2 (C7_one_command_per_action fixed_clock _ []) [_] _ [_]).
    + reflexivity.
    + vm_compute. reflexivity.
    + vm_compute. reflexivity.
Defined.

(** C8, refuted as stated: the reading of [main] is classified Warning. *)
Lemma C8_scenario_A_is_not_critical :
  exists analysis,
    analyze_sensor_data Json.loads refusing_backend no_file main_reading []
    = (Ok analysis, []) /\
    sa_alert_level analysis = alert_value WARNING /\
    sa_alert_level analysis <> alert_value CRITICAL.
Proof.
  eexists. split; [vm_compute; reflexivity|].
  split; [reflexivity | discriminate].
Qed.

Lemma C8_witness :
  exists analysis,
    analyze_sensor_data Json.loads refusing_backend no_file main_reading []
    = (Ok analysis, []) /\
    sa_alert_level analysis = alert_value WARNING /\
    sa_requires_action analysis = true.
Proof.
  apply (C8_scenario_A_is_warning Json.loads refusing_backend no_file main_reading []).
  - reflexivity.
  - reflexivity.
Defined.

(** C9, refuted as stated: a reply that is valid JSON as a whole and has no
    fenced block, only a string that names the marker, is not parsed whole:
    the parsers decode what follows the marker, fail, and fall back.  And a
    block closed by four backticks that run into a second marker yields its
    content with a backtick added. *)
Lemma C9_bare_reply_is_not_parsed_whole :
  Json.loads reply_naming_the_marker = Ok (PyList [PyStr "wrap it in ```json fences"]) /\
  fenced_json reply_naming_the_marker = Ok (dq " fences']") /\
  _parse_prediction Json.loads reply_naming_the_marker
  = prediction_fallback (dq " fences']") /\
  _parse_vision_analysis Json.loads reply_naming_the_marker
  = vision_fallback (dq " fences']") /\
  _parse_actions Json.loads reply_naming_the_marker = [] /\
  fenced_json reply_with_long_fence = Ok "A`".
Proof. vm_compute. repeat split. Qed.

Lemma C9_witness :
  _parse_prediction Json.loads
    ("Plan: " ++ json_marker ++ " [1, 2] " ++ fence ++ " Apply it.")
  = PyList [PyInt 1; PyInt 2] /\
  _parse_prediction Json.loads reply_naming_the_marker
  = prediction_fallback (dq " fences']").
Proof.
  split.
  - apply (proj1 (proj2 (C9_fenced_json_selection Json.loads
                           ("Plan: " ++ json_marker ++ " [1, 2] " ++ fence ++ " Apply it.")))
             " [1, 2] " (PyList [PyInt 1; PyInt 2])).
    + vm_compute. reflexivity.
    + vm_compute. reflexivity.
  - apply (proj2 (proj2 (C9_fenced_json_selection Json.loads reply_naming_the_marker))
             (dq " fences']") JSONDecodeError).
    + vm_compute. reflexivity.
    + vm_compute. reflexivity.
Defined.

Lemma C10_witness :
  _parse_actions Json.loads plan_missing_reason = [] /\
  exists act,
    _parse_actions Json.loads plan_without_priority = [act] /\
    priority act = PyInt 5.
Proof.
  split.
  - edestruct (C10_plan_parsing_all_or_nothing Json.loads plan_missing_reason)
      as [Empty _].
    + vm_compute. reflexivity.
    + vm_compute. reflexivity.
    + right. eexists. split; reflexivity.
    + apply Empty. eexists _, "reason".
      split; [right; left; reflexivity|].
      split; [vm_compute; tauto | reflexivity].
  - edestruct (C10_plan_parsing_all_or_nothing Json.loads plan_without_priority)
      as [_ Built].
    + vm_compute. reflexivity.
    + vm_compute. reflexivity.
    + right. eexists. split; reflexivity.
    + destruct (Built eq_refl) as (Each & Five).
      remember (_parse_actions Json.loads plan_without_priority) as acts eqn:E.
      inversion Each as [|a act items acts' B Rest]; subst.
      inversion Rest; subst.
      exists act. split; [reflexivity|].
      eapply (Five _ act); [left; reflexivity | exact B | reflexivity].
Defined.

(** * Facts about the tank table of the MCP server *)

Lemma assoc_lookup_set_same {V : Type} (k : string) (v : V) (d : list (string * V)) :
  assoc_lookup k (assoc_set k v d) = Some v.
Proof.
  induction d as [|[k' v'] d IH]; cbn [assoc_set assoc_lookup].
  - now rewrite String.eqb_refl.
  - destruct (String.eqb k k') eqn:E; cbn [assoc_lookup]; rewrite ?String.eqb_refl, ?E;
      [reflexivity | exact IH].
Qed.

Lemma assoc_lookup_set_other {V : Type} (k k' : string) (v : V) (d : list (string * V)) :
  k' <> k -> assoc_lookup k' (assoc_set k v d) = assoc_lookup k' d.
Proof.
  intros N. induction d as [|[k0 v0] d IH]; cbn [assoc_set assoc_lookup].
  - now rewrite (proj2 (String.eqb_neq k' k) N).
  - destruct (String.eqb k k0) eqn:E; cbn [assoc_lookup].
    + apply String.eqb_eq in E. subst k0.
      now rewrite (proj2 (String.eqb_neq k' k) N).
    + now rewrite IH.
Qed.

(** The loop of lines 341-350, from any dict built so far. *)
Lemma tank_loop_lookup (ids : list string) (acc : list (string * tank_report))
    (id : string) :
  assoc_lookup id
    (fold_left
       (fun result tank_id =>
          match assoc_lookup tank_id tanks with
          | Some data => assoc_set tank_id (tank_report_of data) result
          | None => result
          end) ids acc)
  = match assoc_lookup id tanks with
    | Some data => if in_dec string_dec id ids then Some (tank_report_of data)
                   else assoc_lookup id acc
    | None => assoc_lookup id acc
    end.
Proof.
  revert acc; induction ids as [|x ids IH]; intros acc.
  - cbn [fold_left]. destruct (assoc_lookup id tanks); [|reflexivity].
    now destruct (in_dec string_dec id []).
  - cbn [fold_left]. rewrite IH.
    destruct (assoc_lookup id tanks) as [data|] eqn:K.
    + destruct (in_dec string_dec id ids) as [I|I];
        destruct (in_dec string_dec id (x :: ids)) as [J|J]; try reflexivity.
      * destruct J. now right.
      * destruct J as [-> | J]; [|contradiction].
        rewrite K. apply assoc_lookup_set_same.
      * destruct (assoc_lookup x tanks); [|reflexivity].
        apply assoc_lookup_set_other. intros ->. apply J. now left.
    + destruct (assoc_lookup x tanks) eqn:Kx; [|reflexivity].
      apply assoc_lookup_set_other. intros ->. congruence.
Qed.

(** What [get_tank_capacity] holds for an id. *)
Lemma tank_capacity_lookup (tank_ids : list string) (id : string) :
  assoc_lookup id (get_tank_capacity tank_ids)
  = match assoc_lookup id tanks with
    | Some data =>
        if in_dec string_dec id tank_ids then Some (tank_report_of data)
        else match tank_ids with
             | [] => Some (tank_report_of data)
             | _ => None
             end
    | None => None
    end.
Proof.
  unfold get_tank_capacity. rewrite tank_loop_lookup.
  destruct (assoc_lookup id tanks) as [data|] eqn:K; [|reflexivity].
  destruct tank_ids as [|x ids].
  - destruct (in_dec string_dec id (map fst tanks)) as [I|I];
      destruct (in_dec string_dec id []) as [J|J]; try reflexivity; try contradiction.
    exfalso. apply I. clear I J. revert K. cbn.
    repeat match goal with
           | |- context [String.eqb id ?k] =>
               destruct (String.eqb_spec id k); [subst; tauto|]
           end.
    discriminate.
  - now destruct (in_dec string_dec id (x :: ids)).
Qed.

(** X12.  [get_tank_capacity] reports a tank exactly when it is in the table
    and was asked for, an empty request asking for every tank.  An id that is
    not in the table is passed over without an error, and the report of a tank
    does not depend on what else is requested, nor on how often it is. *)
Theorem X12_reported_tanks (tank_ids : list string) (id : string) :
  (forall data,
      assoc_lookup id tanks = Some data ->
      tank_ids = [] \/ In id tank_ids ->
      assoc_lookup id (get_tank_capacity tank_ids) = Some (tank_report_of data)) /\
  (assoc_lookup id tanks = None ->
   assoc_lookup id (get_tank_capacity tank_ids) = None) /\
  (tank_ids <> [] -> ~ In id tank_ids ->
   assoc_lookup id (get_tank_capacity tank_ids) = None).
Proof.
  rewrite tank_capacity_lookup. split; [|split].
  - intros data -> [-> | I].
    + now destruct (in_dec string_dec id []).
    + now destruct (in_dec string_dec id tank_ids).
  - now intros ->.
  - intros N I. destruct (assoc_lookup id tanks); [|reflexivity].
    destruct (in_dec string_dec id tank_ids); [contradiction|].
    now destruct tank_ids.
Qed.

(** X13.  Every report of [get_tank_capacity] is consistent: the available
    capacity and the current level add up to the capacity, the available
    capacity is not negative, and the fill percentage lies between 0 and 100
    and is the current level as a share of the capacity. *)
Theorem X13_tank_reports_are_consistent (tank_ids : list string) (id : string)
    (rep : tank_report) :
  assoc_lookup id (get_tank_capacity tank_ids) = Some rep ->
  (available_capacity rep + current_level_liters rep = capacity_liters rep)%Z /\
  (0 <= available_capacity rep)%Z /\
  (0 <= fill_percentage rep)%Q /\ (fill_percentage rep <= 100)%Q /\
  (fill_percentage rep * inject_Z (capacity_liters rep)
   == 100 * inject_Z (current_level_liters rep))%Q.
Proof.
  rewrite tank_capacity_lookup.
  assert (T : forall data, assoc_lookup id tanks = Some data ->
                           In data (map snd tanks)).
  { cbn. intros data.
    repeat match goal with
           | |- context [String.eqb id ?k] => destruct (String.eqb id k)
           end; intros [= <-]; tauto. }
  destruct (assoc_lookup id tanks) as [data|]; [|discriminate].
  specialize (T data eq_refl). intros H.
  assert (E : rep = tank_report_of data).
  { destruct (in_dec string_dec id tank_ids); [congruence|].
    destruct tank_ids; congruence. }
  subst rep. clear H. cbn in T.
  destruct T as [<- | [<- | [<- | []]]]; cbn;
    repeat split; try lia; try discriminate; reflexivity.
Qed.

(** * The further facts on sample runs *)

Lemma X2_witness :
  fenced_json " [1, 2] " = Ok " [1, 2] " /\ str_find fence " [1, 2] " = None.
Proof.
  destruct (X2_selection_is_idempotent
              ("Plan: " ++ json_marker ++ " [1, 2] " ++ fence ++ " Apply it.")
              " [1, 2] ") as (Again & Bare).
  - vm_compute. reflexivity.
  - split; [exact Again|]. apply Bare. vm_compute. discriminate.
Defined.

Lemma X3_witness : _parse_actions Json.loads plan_single_object = [].
Proof.
  eapply (X3_plan_that_is_not_an_array_gives_no_action Json.loads plan_single_object).
  - vm_compute. reflexivity.
  - vm_compute. reflexivity.
  - intros items H. vm_compute in H. discriminate H.
Defined.

Lemma X4_witness :
  alert_rank (alert_level_of 90) <= alert_rank (alert_level_of 97) /\
  alert_level_of (185 # 2) = alert_level_of (925 # 10).
Proof.
  split.
  - apply (proj1 (X4_alert_level_is_monotone 90 97)). unfold Qle. simpl. lia.
  - apply (proj2 (X4_alert_level_is_monotone (185 # 2) (925 # 10))).
    unfold Qeq. simpl. lia.
Defined.

Lemma X5_witness :
  sa_requires_action (analysis_dict main_reading None) = true
  <-> (85 < water_level main_reading)%Q.
Proof.
  apply (X5_action_required_iff_above_85 Json.loads refusing_backend no_file
           main_reading [] [] (analysis_dict main_reading None)).
  reflexivity.
Defined.

Lemma X6_witness :
  exists analysis t',
    analyze_sensor_data Json.loads (constant_backend alarming_vision_reply) one_image
      (reading_with_image 30 camera_image) [] = (Ok analysis, t') /\
    sa_alert_level analysis = alert_value NORMAL /\
    sa_vision_analysis analysis <> None.
Proof.
  destruct (analyze_sensor_data Json.loads (constant_backend alarming_vision_reply)
              one_image (reading_with_image 30 camera_image) [])
    as [[analysis|e] t'] eqn:A; [|vm_compute in A; discriminate A].
  destruct (X6_analysis_follows_the_reading _ _ _ _ _ _ _ A)
    as (_ & _ & _ & _ & _ & Level & Vision).
  exists analysis, t'. split; [reflexivity|]. split; [exact Level|].
  intros N. apply Vision in N. vm_compute in N. discriminate N.
Defined.

Lemma X7_witness :
  process_overflow_scenario Json.loads refusing_backend no_file fixed_clock decimal_str
    (reading_with_image 100 camera_image) []
  = (Raise (FileNotFoundError camera_image), [FileRead camera_image]).
Proof.
  apply (X7_unreadable_image_aborts_the_run Json.loads refusing_backend no_file
           fixed_clock decimal_str (reading_with_image 100 camera_image)
           camera_image []); reflexivity.
Defined.


Lemma X9_witness :
  process_overflow_scenario Json.loads (constant_backend partial_risk_reply) no_file
    fixed_clock decimal_str (reading_at 100) []
  = (Raise (KeyError "overflow_probability_12h"),
     [WeatherForecast (location (reading_at 100)); ChatCompletion prediction_request]) /\
  process_overflow_scenario Json.loads (constant_backend unprintable_risk_reply) no_file
    fixed_clock decimal_str (reading_at 100) []
  = (Raise UnicodeEncodeError,
     [WeatherForecast (location (reading_at 100)); ChatCompletion prediction_request]) /\
  process_overflow_scenario Json.loads (constant_backend "42") no_file
    fixed_clock decimal_str (reading_at 100) []
  = (Raise TypeError,
     [WeatherForecast (location (reading_at 100)); ChatCompletion prediction_request]).
Proof.
  split; [|split].
  - edestruct (X9_incomplete_prediction_aborts_the_run Json.loads
                 (constant_backend partial_risk_reply) no_file fixed_clock decimal_str
                 (reading_at 100) []) as [Key _].
    + reflexivity.
    + vm_compute. reflexivity.
    + vm_compute. reflexivity.
    + exact (Key _ _ eq_refl eq_refl eq_refl).
  - edestruct (X9_incomplete_prediction_aborts_the_run Json.loads
                 (constant_backend unprintable_risk_reply) no_file fixed_clock
                 decimal_str (reading_at 100) []) as [Key _].
    + reflexivity.
    + vm_compute. reflexivity.
    + vm_compute. reflexivity.
    + exact (Key _ _ eq_refl eq_refl eq_refl).
  - edestruct (X9_incomplete_prediction_aborts_the_run Json.loads
                 (constant_backend "42") no_file fixed_clock decimal_str
                 (reading_at 100) []) as [_ Scalar].
    + reflexivity.
    + vm_compute. reflexivity.
    + vm_compute. reflexivity.
    + apply Scalar. exact I.
Defined.

Lemma X10_witness :
  exists r t' queries stamp,
    process_overflow_scenario Json.loads (backend_by_model risk_reply plan_repeated)
      no_file fixed_clock decimal_str (reading_at 96) [] = (Ok r, t') /\
    t' = ([] ++ queries ++ map valve_command (r_actions_taken r)
             ++ [Notification (generate_alert_message decimal_str (r_sensor_analysis r) "en")
                   ["water_dept"; "field_ops"];
                 DatabaseUpdate (sensor_id (reading_at 96)) stamp (r_actions_taken r)
                   (sa_alert_level (r_sensor_analysis r))])%list /\
    forallb is_query queries = true.
Proof.
  destruct (process_overflow_scenario Json.loads
              (backend_by_model risk_reply plan_repeated)
              no_file fixed_clock decimal_str (reading_at 96) [])
    as [[r|e] t'] eqn:Run; [|vm_compute in Run; discriminate Run].
  assert (Req : sa_requires_action (r_sensor_analysis r) = true).
  { vm_compute in Run. injection Run as <- _. reflexivity. }
  destruct (X10_actionable_run_effects _ _ _ _ _ _ _ _ _ Run Req)
    as (queries & stamp & E & Q).
  exists r, t', queries, stamp. split; [reflexivity|]. split; [exact E | exact Q].
Defined.

Lemma X11_witness :
  exists res t' calls,
    process_overflow_scenario Json.loads (backend_by_model risk_reply plan_repeated)
      no_file fixed_clock decimal_str (reading_at 96) [] = (res, t') /\
    t' = ([] ++ calls)%list /\
    List.length (filter is_completion calls) <= 2.
Proof.
  destruct (process_overflow_scenario Json.loads
              (backend_by_model risk_reply plan_repeated)
              no_file fixed_clock decimal_str (reading_at 96) [])
    as [res t'] eqn:Run.
  destruct (X11_at_most_three_requests _ _ _ _ _ _ _ _ _ Run)
    as (calls & E & _ & Two).
  exists res, t', calls. split; [reflexivity|]. split; [exact E|].
  apply Two. reflexivity.
Defined.

Lemma X12_witness :
  assoc_lookup "recharge_pit_3"
    (get_tank_capacity ["recharge_pit_3"; "lake_9"; "recharge_pit_3"])
  = Some (tank_report_of {| total_capacity := 20000; current_level := 12000 |}) /\
  assoc_lookup "lake_9"
    (get_tank_capacity ["recharge_pit_3"; "lake_9"; "recharge_pit_3"]) = None /\
  assoc_lookup "tank_drinking_1"
    (get_tank_capacity ["recharge_pit_3"; "lake_9"; "recharge_pit_3"]) = None.
Proof.
  split; [|split].
  - apply (proj1 (X12_reported_tanks ["recharge_pit_3"; "lake_9"; "recharge_pit_3"]
                    "recharge_pit_3")).
    + reflexivity.
    + right. left. reflexivity.
  - apply (proj1 (proj2 (X12_reported_tanks
                           ["recharge_pit_3"; "lake_9"; "recharge_pit_3"] "lake_9"))).
    reflexivity.
  - apply (proj2 (proj2 (X12_reported_tanks
                           ["recharge_pit_3"; "lake_9"; "recharge_pit_3"]
                           "tank_drinking_1"))).
    + discriminate.
    + cbn. intros [H | [H | [H | []]]]; discriminate H.
Defined.

Lemma X13_witness :
  exists rep,
    assoc_lookup "reservoir_agri_2" (get_tank_capacity []) = Some rep /\
    (available_capacity rep + current_level_liters rep = capacity_liters rep)%Z /\
    (0 <= available_capacity rep)%Z /\
    (0 <= fill_percentage rep)%Q /\ (fill_percentage rep <= 100)%Q /\
    (fill_percentage rep * inject_Z (capacity_liters rep)
     == 100 * inject_Z (current_level_liters rep))%Q.
Proof.
  exists (tank_report_of {| total_capacity := 50000; current_level := 35000 |}).
  split; [reflexivity|].
  apply (X13_tank_reports_are_consistent [] "reservoir_agri_2"). reflexivity.
Defined.
